(** * Railway workshop coach tracker

    A model of [COACH_TRACKER.py]: a Streamlit script over a SQLite file
    with two tables, [coaches] and [movements].  Every [c.execute] of the
    script is a function on the tables below; every button handler is a
    function from the state of the store to a new state and the notice
    shown to the operator.

    Conventions
    - a Python [str] and a SQLite [TEXT] value are a [string]: the sequence
      of the bytes of its UTF-8 encoding, which is also the order SQLite's
      BINARY collation compares;
    - storage failures (I/O errors, a full disk, an exhausted rowid space)
      raise in the script and are not part of this model. *)

From Stdlib Require Import String Ascii List ZArith Lia Bool Sorted.
From Stdlib Require Import DecimalString DecimalZ DecimalPos.
Import ListNotations.
Local Open Scope string_scope.
Local Open Scope Z_scope.

(* ================================================================= *)
(** ** Python values *)

(** [if s:] on a [str]. *)
Definition truthy (s : string) : bool :=
  match s with
  | EmptyString => false
  | String _ _ => true
  end.

(** [str(n)] on an [int]. *)
Definition str_int (n : Z) : string := NilZero.string_of_int (Z.to_int n).

(** [int(s)], [None] where Python raises [ValueError]. *)
Definition int_str (s : string) : option Z :=
  option_map Z.of_int (NilZero.int_of_string s).

Fixpoint zeros (k : nat) : string :=
  match k with
  | O => ""
  | S k' => String "0" (zeros k')
  end.

(** [s.rjust(width, "0")]. *)
Definition rjust0 (width : nat) (s : string) : string :=
  zeros (width - String.length s) ++ s.

(** ["%0<width>d" % n]. *)
Definition fmt0 (width : nat) (n : Z) : string :=
  if n <? 0 then String "-" (rjust0 (width - 1) (str_int (- n)))
  else rjust0 width (str_int n).

(** The decimal digit [k] as a character, and the [width] low digits of
    [n], most significant first: what [fmt0 width n] is while [n] fits. *)
Definition digit (k : Z) : ascii := ascii_of_N (48 + Z.to_N k).

Fixpoint digits_of (width : nat) (n : Z) : string :=
  match width with
  | O => ""
  | S k => digits_of k (n / 10) ++ String (digit (n mod 10)) ""
  end.

(** The integers [0 .. n-1]. *)
Definition upto (n : Z) : list Z := map Z.of_nat (List.seq 0 (Z.to_nat n)).

(* ================================================================= *)
(** ** [datetime.date] and [datetime.datetime] *)

Record date : Type := Date { year : Z; month : Z; day : Z }.

Definition MINYEAR : Z := 1.
Definition MAXYEAR : Z := 9999.

Definition is_leap (y : Z) : bool :=
  (y mod 4 =? 0) && (negb (y mod 100 =? 0) || (y mod 400 =? 0)).

Definition days_in_month (y m : Z) : Z :=
  if m =? 2 then (if is_leap y then 29 else 28)
  else if (m =? 4) || (m =? 6) || (m =? 9) || (m =? 11) then 30
  else 31.

(** The constructor check of [datetime.date]. *)
Definition date_ok (d : date) : bool :=
  (MINYEAR <=? year d) && (year d <=? MAXYEAR) &&
  (1 <=? month d) && (month d <=? 12) &&
  (1 <=? day d) && (day d <=? days_in_month (year d) (month d)).

(** [str(d)], that is [d.isoformat()]: ["%04d-%02d-%02d"]. *)
Definition isoformat (d : date) : string :=
  fmt0 4 (year d) ++ "-" ++ fmt0 2 (month d) ++ "-" ++ fmt0 2 (day d).

(** The order of [datetime.date]: by year, then month, then day. *)
Definition date_compare (a b : date) : comparison :=
  match year a ?= year b with
  | Eq => match month a ?= month b with
          | Eq => day a ?= day b
          | c => c
          end
  | c => c
  end.

Definition date_leb (a b : date) : bool :=
  match date_compare a b with Gt => false | _ => true end.

Record datetime : Type := DateTime {
  on_date : date;
  hour : Z;
  minute : Z;
  second : Z;
  microsecond : Z
}.

Definition datetime_ok (t : datetime) : bool :=
  date_ok (on_date t) &&
  (0 <=? hour t) && (hour t <? 24) &&
  (0 <=? minute t) && (minute t <? 60) &&
  (0 <=? second t) && (second t <? 60) &&
  (0 <=? microsecond t) && (microsecond t <? 1000000).

(** [t.strftime("%Y-%m-%d %H:%M:%S")]; the microseconds are dropped.  [%Y]
    is the year as the C library of Linux prints it, without padding (999,
    not 0999); where the year is padded to four digits (other C libraries,
    later versions of Python) the text is the same from the year 1000
    on. *)
Definition strftime (t : datetime) : string :=
  str_int (year (on_date t)) ++ "-" ++ fmt0 2 (month (on_date t)) ++ "-" ++
  fmt0 2 (day (on_date t)) ++ " " ++
  fmt0 2 (hour t) ++ ":" ++ fmt0 2 (minute t) ++ ":" ++ fmt0 2 (second t).

(** Two readings of the clock that fall in the same calendar second. *)
Definition same_second (a b : datetime) : Prop :=
  on_date a = on_date b /\ hour a = hour b /\
  minute a = minute b /\ second a = second b.

(* ================================================================= *)
(** ** SQLite tables *)

(** A table with an [INTEGER PRIMARY KEY AUTOINCREMENT] column: its rows in
    rowid order and its entry in [sqlite_sequence]. *)
Record table (R : Type) : Type := Table { seq : Z; rows : list R }.
Arguments Table {R} _ _.
Arguments seq {R} _.
Arguments rows {R} _.

Definition empty_table {R : Type} : table R := Table 0 [].

Section Statements.
Context {R : Type} (rowid : R -> Z).

Definition max_rowid (l : list R) : Z :=
  fold_right (fun r m => Z.max (rowid r) m) 0 l.

(** AUTOINCREMENT: one more than the largest rowid the table ever held. *)
Definition next_rowid (t : table R) : Z :=
  Z.max (seq t) (max_rowid (rows t)) + 1.

(** [INSERT INTO t (...) VALUES (...)], the id column left out. *)
Definition insert (mk : Z -> R) (t : table R) : table R :=
  let i := next_rowid t in
  Table i (rows t ++ [mk i])%list.

(** [UPDATE t SET ... WHERE ...]. *)
Definition update (where_ : R -> bool) (set : R -> R) (t : table R)
  : table R :=
  Table (seq t) (map (fun r => if where_ r then set r else r) (rows t)).

(** The rows an [UPDATE ... WHERE ...] touches ([cursor.rowcount]). *)
Definition rowcount (where_ : R -> bool) (t : table R) : nat :=
  List.length (filter where_ (rows t)).

(** [SELECT * FROM t WHERE ...] followed by [fetchall()]. *)
Definition select (where_ : R -> bool) (t : table R) : list R :=
  filter where_ (rows t).
End Statements.

Module Coach.
Record row : Type := Row {
  id : Z;
  coach_no : string;
  coach_type : string;
  date_in : string;
  current_shop : string
}.

Definition set_current_shop (s : string) (r : row) : row :=
  Row (id r) (coach_no r) (coach_type r) (date_in r) s.
End Coach.

Module Movement.
Record row : Type := Row {
  id : Z;
  coach_no : string;
  shop_in : string;
  shop_out : string;
  work_done : string;
  time_in : string;
  time_out : string
}.
End Movement.

(** The file [coaches.db]: each table is there or not. *)
Record store : Type := Store {
  coaches_table : option (table Coach.row);
  movements_table : option (table Movement.row)
}.

(** [CREATE TABLE IF NOT EXISTS]. *)
Definition create_table_if_not_exists {R : Type} (t : option (table R))
  : option (table R) :=
  match t with
  | Some x => Some x
  | None => Some empty_table
  end.

(** Lines 15-36: both CREATE statements, then the commit. *)
Definition ensure_schema (s : store) : store :=
  Store (create_table_if_not_exists (coaches_table s))
        (create_table_if_not_exists (movements_table s)).

(** The store as the tabs see it, after the schema is in place. *)
Record db : Type := Db {
  coaches : table Coach.row;
  movements : table Movement.row
}.

Definition opened (s : store) : option db :=
  match coaches_table s, movements_table s with
  | Some c, Some m => Some (Db c m)
  | _, _ => None
  end.

Definition saved (d : db) : store :=
  Store (Some (coaches d)) (Some (movements d)).

(** The list of a table is in rowid order, the order in which SQLite scans
    a table for a SELECT without ORDER BY. *)
Definition rowid_order {R : Type} (rowid : R -> Z) (t : table R) : Prop :=
  StronglySorted Z.lt (map rowid (rows t)).

Definition db_ok (d : db) : Prop :=
  rowid_order Coach.id (coaches d) /\ rowid_order Movement.id (movements d).

(* ================================================================= *)
(** ** The operator's session *)

Inductive notice : Type :=
| Success (msg : string)
| Warning (msg : string)
| Info (msg : string).

(** The store and the wall clock: [clock n] is what the [n]-th reading of
    the clock returns, by [datetime.now()] or by [datetime.today()]. *)
Record world : Type := World {
  database : db;
  clock : nat -> datetime;
  reads : nat
}.

Definition now (w : world) : datetime * world :=
  (clock w (reads w), World (database w) (clock w) (S (reads w))).

Definition with_database (d : db) (w : world) : world :=
  World d (clock w) (reads w).

(* ================================================================= *)
(** ** Query service *)

(** Add Coach tab, lines 113-120. *)
Definition add_coach (coach_no coach_type : string) (date_in : date)
  (shop : string) (d : db) : db * notice :=
  if truthy coach_no && truthy shop then
    (Db (insert Coach.id
           (fun i => Coach.Row i coach_no coach_type (isoformat date_in) shop)
           (coaches d))
        (movements d),
     Success ("✅ Coach " ++ coach_no ++ " added!"))
  else (d, Warning "Please fill in all details.").

(** Dashboard tab, lines 72-73. *)
Definition list_coaches (d : db) : list Coach.row :=
  select (fun _ => true) (coaches d).

(** Update Movement tab, lines 128-129. *)
Definition list_coach_numbers (d : db) : list string :=
  map Coach.coach_no (select (fun _ => true) (coaches d)).

(** Update Movement tab, lines 137-149: the handler of the button. *)
Definition record_movement (coach_no shop_out shop_in work_done : string)
  (w : world) : world * notice :=
  if truthy shop_in && truthy shop_out then
    let (t1, w1) := now w in
    let time_in := strftime t1 in
    let (t2, w2) := now w1 in
    let time_out := strftime t2 in
    let d := database w2 in
    let movements' :=
      insert Movement.id
        (fun i => Movement.Row i coach_no shop_in shop_out work_done
                    time_in time_out)
        (movements d) in
    let coaches' :=
      update (fun r => (Coach.coach_no r =? coach_no)%string)
        (Coach.set_current_shop shop_in) (coaches d) in
    (with_database (Db coaches' movements') w2,
     Success ("✅ Movement updated for Coach " ++ coach_no))
  else (w, Warning "Please fill in both shop fields.").

(** What the UPDATE of [record_movement] does to one coach row. *)
Definition moved_to (coach_no shop_in : string) (r r' : Coach.row) : Prop :=
  Coach.id r' = Coach.id r /\
  Coach.coach_no r' = Coach.coach_no r /\
  Coach.coach_type r' = Coach.coach_type r /\
  Coach.date_in r' = Coach.date_in r /\
  (Coach.coach_no r = coach_no -> Coach.current_shop r' = shop_in) /\
  (Coach.coach_no r <> coach_no -> r' = r).

(** Coach Details tab, lines 160-162. *)
Definition get_movements_for (coach_no : string) (d : db)
  : list Movement.row :=
  select (fun m => (Movement.coach_no m =? coach_no)%string) (movements d).

(** Update Movement tab, lines 128-151, as the operator reaches the handler:
    the coach number is the entry of the select box that is chosen, and
    there is no form at all while the table of coaches is empty. *)
Definition update_movement_tab (choice : nat)
  (shop_out shop_in work_done : string) (pressed : bool) (w : world)
  : world * option notice :=
  match list_coach_numbers (database w) with
  | [] => (w, Some (Info "No coaches available. Please add a coach first."))
  | first :: rest =>
      let coach_list := first :: rest in
      let coach_no := nth choice coach_list first in
      if pressed then
        let (w', n) := record_movement coach_no shop_out shop_in work_done w in
        (w', Some n)
      else (w, None)
  end.

(** *** Reports tab: the query is put together at run time *)

Inductive text_column : Type :=
| coach_no_col
| coach_type_col
| date_in_col
| current_shop_col.

Definition column_value (c : text_column) (r : Coach.row) : string :=
  match c with
  | coach_no_col => Coach.coach_no r
  | coach_type_col => Coach.coach_type r
  | date_in_col => Coach.date_in r
  | current_shop_col => Coach.current_shop r
  end.

(** One conjunct of a WHERE clause, with [?] for its operands. *)
Inductive condition : Type :=
| Between (c : text_column)      (* c BETWEEN ? AND ? *)
| Equals (c : text_column).      (* c=? *)

(** Binding the parameters to the [?]s from left to right; [None] when their
    number is wrong ([sqlite3.ProgrammingError]). *)
Fixpoint bind (query : list condition) (params : list string)
  : option (Coach.row -> bool) :=
  match query, params with
  | [], [] => Some (fun _ => true)
  | Between c :: query', lo :: hi :: params' =>
      option_map
        (fun rest r =>
           (String.leb lo (column_value c r)
            && String.leb (column_value c r) hi) && rest r)
        (bind query' params')
  | Equals c :: query', v :: params' =>
      option_map
        (fun rest r => (column_value c r =? v)%string && rest r)
        (bind query' params')
  | _, _ => None
  end.

(** [c.execute(query, params)] then [c.fetchall()] on the coaches. *)
Definition execute (query : list condition) (params : list string) (d : db)
  : option (list Coach.row) :=
  option_map (fun where_ => select where_ (coaches d)) (bind query params).

(** Reports tab, lines 189-197. *)
Definition filter_coaches (start_date end_date : date)
  (coach_type_filter : string) (d : db) : option (list Coach.row) :=
  let query := [Between date_in_col] in
  let params := [isoformat start_date; isoformat end_date] in
  let (query, params) :=
    if negb (coach_type_filter =? "All")%string
    then ((query ++ [Equals coach_type_col])%list,
          (params ++ [coach_type_filter])%list)
    else (query, params) in
  execute query params d.

(** The rows a report is to show, in words of TEXT values: [date_in]
    between the two bounds, both included, and the type asked for unless
    the filter is the sentinel. *)
Definition in_report (start_date end_date coach_type_filter : string)
  (r : Coach.row) : bool :=
  String.leb start_date (Coach.date_in r)
  && String.leb (Coach.date_in r) end_date
  && ((coach_type_filter =? "All")%string
      || (Coach.coach_type r =? coach_type_filter)%string).

(* ================================================================= *)
(** ** Export *)

(** A cell of a pandas [DataFrame] built from the fetched tuples. *)
Inductive cell : Type :=
| IntCell (n : Z)
| StrCell (s : string).

Record DataFrame : Type := Frame {
  columns : list string;
  records : list (list cell)
}.

Definition coach_columns : list string :=
  ["ID"; "Coach No"; "Type"; "Date In"; "Current Shop"].

Definition coach_tuple (r : Coach.row) : list cell :=
  [IntCell (Coach.id r); StrCell (Coach.coach_no r);
   StrCell (Coach.coach_type r); StrCell (Coach.date_in r);
   StrCell (Coach.current_shop r)].

(** Line 200: [pd.DataFrame(data, columns=[...])]. *)
Definition coach_frame (data : list Coach.row) : DataFrame :=
  Frame coach_columns (map coach_tuple data).

Definition cell_text (c : cell) : string :=
  match c with
  | IntCell n => str_int n
  | StrCell s => s
  end.

Definition delimiter : ascii := ",".
Definition quotechar : ascii := Eval cbv in ascii_of_nat 34.
Definition CR : ascii := Eval cbv in ascii_of_nat 13.
Definition LF : ascii := Eval cbv in ascii_of_nat 10.

(** [os.linesep], the line terminator [to_csv] uses. *)
Inductive os : Type := posix | nt.

Definition linesep (o : os) : string :=
  match o with
  | posix => String LF ""
  | nt => String CR (String LF "")
  end.

(** [csv.writer] with QUOTE_MINIMAL and doublequote, as pandas sets it up:
    a field is quoted when it holds the delimiter, the quote character, a
    carriage return or a line feed.  (This is the writer of Python 3.13
    and later; before, a carriage return or line feed that is no part of
    the line terminator did not by itself cause quoting.) *)
Definition special (c : ascii) : bool :=
  (c =? delimiter)%char || (c =? quotechar)%char ||
  (c =? CR)%char || (c =? LF)%char.

Fixpoint needs_quotes (s : string) : bool :=
  match s with
  | EmptyString => false
  | String c s' => special c || needs_quotes s'
  end.

Fixpoint escape (s : string) : string :=
  match s with
  | EmptyString => EmptyString
  | String c s' =>
      if (c =? quotechar)%char
      then String quotechar (String quotechar (escape s'))
      else String c (escape s')
  end.

Definition quoted (s : string) : string :=
  String quotechar (escape s ++ String quotechar "").

Definition write_field (s : string) : string :=
  if needs_quotes s then quoted s else s.

(** The writer before Python 3.13: of the line breaks only the characters
    of the line terminator cause quoting. *)
Fixpoint occurs (c : ascii) (s : string) : bool :=
  match s with
  | EmptyString => false
  | String c' s' => (c =? c')%char || occurs c s'
  end.

Definition legacy_special (o : os) (c : ascii) : bool :=
  (c =? delimiter)%char || (c =? quotechar)%char || occurs c (linesep o).

Fixpoint legacy_needs_quotes (o : os) (s : string) : bool :=
  match s with
  | EmptyString => false
  | String c s' => legacy_special o c || legacy_needs_quotes o s'
  end.

Definition legacy_write_field (o : os) (s : string) : string :=
  if legacy_needs_quotes o s then quoted s else s.

(** Where the script runs: the operating system, which fixes the line
    terminator, and the [csv] module of the Python at hand, which fixes
    what is quoted. *)
Inductive quoting : Type :=
| terminator_only       (* Python before 3.13 *)
| every_line_break.     (* Python 3.13 and later *)

Record runtime : Type := Runtime {
  platform : os;
  csv_quoting : quoting
}.

(** The field as the writer of the runtime writes it. *)
Definition write_field_on (rt : runtime) (s : string) : string :=
  match csv_quoting rt with
  | every_line_break => write_field s
  | terminator_only => legacy_write_field (platform rt) s
  end.

(** [writer.writerow], given how a field is written: a record that is one
    empty field is written quoted. *)
Definition writerow_with (wf : string -> string) (o : os)
  (fields : list string) : string :=
  match fields with
  | [EmptyString] => quoted "" ++ linesep o
  | _ => String.concat (String delimiter "") (map wf fields) ++ linesep o
  end.

Fixpoint writerows_with (wf : string -> string) (o : os)
  (rs : list (list string)) : string :=
  match rs with
  | [] => ""
  | r :: rs' => writerow_with wf o r ++ writerows_with wf o rs'
  end.

Definition writerow (rt : runtime) (fields : list string) : string :=
  writerow_with (write_field_on rt) (platform rt) fields.

Definition writerows (rt : runtime) (rs : list (list string)) : string :=
  writerows_with (write_field_on rt) (platform rt) rs.

(** [df.to_csv(index=False)]: the header, then one record per row. *)
Definition to_csv (rt : runtime) (df : DataFrame) : string :=
  writerow rt (columns df)
  ++ writerows rt (map (map cell_text) (records df)).

(** The runtimes on which a carriage return in a field is quoted: every
    one but the older writer with the bare line feed as terminator. *)
Definition quotes_carriage_return (rt : runtime) : bool :=
  match csv_quoting rt, platform rt with
  | every_line_break, _ => true
  | terminator_only, nt => true
  | terminator_only, posix => false
  end.

(** A coach none of whose TEXT fields holds a carriage return. *)
Definition cr_free (r : Coach.row) : bool :=
  negb (occurs CR (Coach.coach_no r))
  && negb (occurs CR (Coach.coach_type r))
  && negb (occurs CR (Coach.date_in r))
  && negb (occurs CR (Coach.current_shop r)).

(** [s.encode("utf-8")]: the bytes the text consists of. *)
Definition encode_utf8 (s : string) : list Byte.byte := list_byte_of_string s.
Definition decode_utf8 (b : list Byte.byte) : string := string_of_list_byte b.

(** Lines 200 and 222: the bytes behind the CSV download button. *)
Definition export_csv (rt : runtime) (data : list Coach.row)
  : list Byte.byte :=
  encode_utf8 (to_csv rt (coach_frame data)).

(** Lines 231-234: the workbook behind the Excel download button, as the
    sheets it holds: a name and the grid of cells, header first. *)
Definition export_spreadsheet (data : list Coach.row)
  : list (string * list (list cell)) :=
  let df := coach_frame data in
  [("Report", (map StrCell (columns df) :: records df)%list)].

(** *** Reading a CSV text back

    The automaton of [csv.reader] for the same dialect over a text opened
    with [newline=''], as the module prescribes: a line ends at a line
    feed, at a carriage return or at the pair, and reaches the reader
    untranslated.  The text is fed one character at a time. *)
Inductive reader_state : Type :=
| StartRecord
| AfterCR
| StartField
| InField
| InQuoted
| QuoteInQuoted.

Record reader : Type := Reader {
  state : reader_state;
  field : string;
  fields : list string;
  parsed : list (list string)
}.

Definition add_char (r : reader) (c : ascii) (st : reader_state) : reader :=
  Reader st (field r ++ String c "") (fields r) (parsed r).

Definition save_field (r : reader) : reader :=
  Reader StartField "" (fields r ++ [field r])%list (parsed r).

Definition end_record (r : reader) (st : reader_state) : reader :=
  Reader st "" [] (parsed r ++ [(fields r ++ [field r])%list])%list.

Definition start_field (r : reader) (c : ascii) : reader :=
  if (c =? LF)%char then end_record r StartRecord
  else if (c =? CR)%char then end_record r AfterCR
  else if (c =? quotechar)%char
       then Reader InQuoted (field r) (fields r) (parsed r)
  else if (c =? delimiter)%char then save_field r
  else add_char r c InField.

Definition step (r : reader) (c : ascii) : reader :=
  match state r with
  | StartRecord =>
      if (c =? LF)%char
      then Reader StartRecord "" [] (parsed r ++ [[]])%list
      else if (c =? CR)%char
      then Reader AfterCR "" [] (parsed r ++ [[]])%list
      else start_field r c
  | AfterCR =>
      if (c =? LF)%char then Reader StartRecord "" [] (parsed r)
      else if (c =? CR)%char
      then Reader AfterCR "" [] (parsed r ++ [[]])%list
      else start_field r c
  | StartField => start_field r c
  | InField =>
      if (c =? LF)%char then end_record r StartRecord
      else if (c =? CR)%char then end_record r AfterCR
      else if (c =? delimiter)%char then save_field r
      else add_char r c InField
  | InQuoted =>
      if (c =? quotechar)%char
      then Reader QuoteInQuoted (field r) (fields r) (parsed r)
      else add_char r c InQuoted
  | QuoteInQuoted =>
      if (c =? quotechar)%char then add_char r c InQuoted
      else if (c =? delimiter)%char then save_field r
      else if (c =? LF)%char then end_record r StartRecord
      else if (c =? CR)%char then end_record r AfterCR
      else add_char r c InField
  end.

Fixpoint feed (r : reader) (s : string) : reader :=
  match s with
  | EmptyString => r
  | String c s' => feed (step r c) s'
  end.

(** The end of the text closes a record that is under way. *)
Definition finish (r : reader) : list (list string) :=
  match state r with
  | StartRecord | AfterCR => parsed r
  | _ => (parsed r ++ [(fields r ++ [field r])%list])%list
  end.

Definition read_csv (s : string) : list (list string) :=
  finish (feed (Reader StartRecord "" [] []) s).

(** The states in which a field is complete once a delimiter or a line
    end arrives. *)
Definition closing (st : reader_state) : Prop :=
  st = StartField \/ st = InField \/ st = QuoteInQuoted.

(** A text whose first character starts a field, not an empty line. *)
Definition opens_record (s : string) : Prop :=
  match s with
  | EmptyString => False
  | String c _ => (c =? LF)%char = false /\ (c =? CR)%char = false
  end.

(** A record of the export read as a coach: the ID through [int]. *)
Definition coach_of_record (fs : list string) : option Coach.row :=
  match fs with
  | [i; n; t; d; s] =>
      option_map (fun k => Coach.Row k n t d s) (int_str i)
  | _ => None
  end.

Fixpoint coaches_of_records (rs : list (list string))
  : option (list Coach.row) :=
  match rs with
  | [] => Some []
  | fs :: rs' =>
      match coach_of_record fs, coaches_of_records rs' with
      | Some r, Some l => Some (r :: l)
      | _, _ => None
      end
  end.

(** The download parsed back: the header and the coaches. *)
Definition import_csv (b : list Byte.byte)
  : option (list string * list Coach.row) :=
  match read_csv (decode_utf8 b) with
  | [] => None
  | header :: rs => option_map (pair header) (coaches_of_records rs)
  end.

Inductive report : Type :=
| NoReport (n : notice)
| Report (data : list Coach.row) (csv : list Byte.byte)
    (xlsx : list (string * list (list cell))).

(** Reports tab, lines 189-244: the table and both downloads, or a notice
    and no download when the filters match no coach.  [None] stands for the
    error of a query whose parameters do not fit its question marks. *)
Definition reports_tab (o : runtime) (start_date end_date : date)
  (coach_type_filter : string) (d : db) : option report :=
  option_map
    (fun data =>
       match data with
       | [] => NoReport (Info "⚠️ No coaches found for given filters.")
       | _ :: _ => Report data (export_csv o data) (export_spreadsheet data)
       end)
    (filter_coaches start_date end_date coach_type_filter d).

(* ================================================================= *)
(** ** The operations of the system *)

Inductive operation : Type :=
| AddCoach (coach_no coach_type : string) (date_in : date) (shop : string)
| RecordMovement (coach_no shop_out shop_in work_done : string)
| ListCoaches
| ListCoachNumbers
| GetMovementsFor (coach_no : string)
| FilterCoaches (start_date end_date : date) (coach_type_filter : string)
| ExportCsv (o : runtime) (data : list Coach.row)
| ExportSpreadsheet (data : list Coach.row).

Inductive response : Type :=
| Notice (n : notice)
| CoachRows (l : option (list Coach.row))
| CoachNumbers (l : list string)
| MovementRows (l : list Movement.row)
| CsvFile (b : list Byte.byte)
| Workbook (sheets : list (string * list (list cell))).

Definition perform (op : operation) (w : world) : world * response :=
  match op with
  | AddCoach coach_no coach_type date_in shop =>
      let (d, n) := add_coach coach_no coach_type date_in shop (database w) in
      (with_database d w, Notice n)
  | RecordMovement coach_no shop_out shop_in work_done =>
      let (w', n) := record_movement coach_no shop_out shop_in work_done w in
      (w', Notice n)
  | ListCoaches => (w, CoachRows (Some (list_coaches (database w))))
  | ListCoachNumbers => (w, CoachNumbers (list_coach_numbers (database w)))
  | GetMovementsFor coach_no =>
      (w, MovementRows (get_movements_for coach_no (database w)))
  | FilterCoaches s e t => (w, CoachRows (filter_coaches s e t (database w)))
  | ExportCsv o data => (w, CsvFile (export_csv o data))
  | ExportSpreadsheet data => (w, Workbook (export_spreadsheet data))
  end.

(** One run of the script on the file: the schema first, then the
    operation the operator asked for. *)
Definition run (op : operation) (s : store) (clk : nat -> datetime)
  : option (store * response) :=
  match opened (ensure_schema s) with
  | Some d =>
      let (w, out) := perform op (World d clk 0) in
      Some (saved (database w), out)
  | None => None
  end.

(* ================================================================= *)
(** ** The script, tab by tab *)

(** [SELECT k, COUNT( * ) FROM t GROUP BY k]: SQLite sorts the rows on the
    key and counts each run, so the groups come in ascending key order.
    [tally] adds one row to the groups counted so far. *)
Fixpoint tally (k : string) (groups : list (string * nat))
  : list (string * nat) :=
  match groups with
  | [] => [(k, 1%nat)]
  | (k', n) :: rest =>
      match String.compare k k' with
      | Eq => (k', S n) :: rest
      | Lt => (k, 1%nat) :: groups
      | Gt => (k', n) :: tally k rest
      end
  end.

Definition group_count (keys : list string) : list (string * nat) :=
  fold_right tally [] keys.

(** The count a result of [group_count] gives for a key, 0 when the key has
    no group. *)
Fixpoint count_for (k : string) (groups : list (string * nat)) : nat :=
  match groups with
  | [] => 0%nat
  | (k', n) :: rest => if (k' =? k)%string then n else count_for k rest
  end.

(** The keys of the groups are in strictly ascending order. *)
Definition ascending (groups : list (string * nat)) : Prop :=
  StronglySorted (fun a b => String.compare a b = Lt) (map fst groups).

Definition sum_counts (groups : list (string * nat)) : nat :=
  fold_right (fun p acc => (snd p + acc)%nat) 0%nat groups.

(** [SELECT DISTINCT ...] followed by [len(c.fetchall())]. *)
Definition count_distinct (values : list string) : nat :=
  List.length (nodup string_dec values).

(** What the Dashboard tab puts on the page, lines 51-101. *)
Record dashboard : Type := Dashboard {
  total_coaches : nat;
  total_movements : nat;
  total_shops : nat;
  coaches_view : list Coach.row + notice;
  coaches_by_type : option (list (string * nat));
  movements_per_coach : option (list (string * nat))
}.

(** [if data:] on a fetched list: a chart is drawn only from a non-empty
    result. *)
Definition chart_of (data : list (string * nat))
  : option (list (string * nat)) :=
  match data with
  | [] => None
  | _ :: _ => Some data
  end.

Definition dashboard_tab (d : db) : dashboard :=
  let total_coaches := List.length (select (fun _ => true) (coaches d)) in
  let total_movements := List.length (select (fun _ => true) (movements d)) in
  let total_shops :=
    count_distinct
      (map Coach.current_shop (select (fun _ => true) (coaches d))) in
  let data := select (fun _ => true) (coaches d) in
  let view :=
    match data with
    | [] => inr (Info
        "No coaches available yet. Add some in ➕ Add Coach tab.")
    | _ :: _ => inl data
    end in
  let by_type :=
    group_count
      (map Coach.coach_type (select (fun _ => true) (coaches d))) in
  let report :=
    group_count
      (map Movement.coach_no (select (fun _ => true) (movements d))) in
  Dashboard total_coaches total_movements total_shops view
    (chart_of by_type) (chart_of report).

(** The button that was clicked to start this run of the script; at most
    one [st.button] returns [True] in a run. *)
Inductive button : Type :=
| NoButton
| AddCoachButton
| UpdateMovementButton
| GetDetailsButton.

(** The options of the two type select boxes, lines 109 and 186. *)
Inductive coach_type_option : Type := AC | Sleeper | General.

Definition coach_type_text (t : coach_type_option) : string :=
  match t with
  | AC => "AC"
  | Sleeper => "Sleeper"
  | General => "General"
  end.

Inductive filter_option : Type :=
| AllTypes
| OnlyType (t : coach_type_option).

Definition filter_text (f : filter_option) : string :=
  match f with
  | AllTypes => "All"
  | OnlyType t => coach_type_text t
  end.

(** The values of the widgets in one run.  "Date In" is the date the
    widget returns: the one picked, or the current day, which Streamlit
    fills in by itself while the widget is untouched.  The defaults of
    "Start Date" and "End Date" are computed by the script, lines 182 and
    184, so for these the record holds only what was picked. *)
Record widgets : Type := Widgets {
  coach_number_input : string;        (* "Coach Number" *)
  type_input : coach_type_option;     (* "Type" *)
  date_in_input : date;               (* "Date In" *)
  initial_shop_input : string;        (* "Initial Shop" *)
  select_coach_input : nat;           (* "Select Coach", the entry chosen *)
  shop_out_input : string;            (* "Shop Out" *)
  shop_in_input : string;             (* "Shop In (Next Shop)" *)
  work_done_input : string;           (* "Work Done" *)
  details_input : string;             (* "Enter Coach Number" *)
  start_date_input : option date;     (* "Start Date", if one was picked *)
  end_date_input : option date;       (* "End Date", if one was picked *)
  filter_input : filter_option;       (* "Coach Type" *)
  clicked : button
}.

Definition is_add_coach (b : button) : bool :=
  match b with AddCoachButton => true | _ => false end.

Definition is_update_movement (b : button) : bool :=
  match b with UpdateMovementButton => true | _ => false end.

Definition is_get_details (b : button) : bool :=
  match b with GetDetailsButton => true | _ => false end.

(** Add Coach tab, lines 106-120. *)
Definition add_coach_tab (ui : widgets) (d : db) : db * option notice :=
  if is_add_coach (clicked ui) then
    let (d', n) :=
      add_coach (coach_number_input ui) (coach_type_text (type_input ui))
        (date_in_input ui) (initial_shop_input ui) d in
    (d', Some n)
  else (d, None).

(** Coach Details tab, lines 156-170. *)
Definition details_tab (ui : widgets) (d : db)
  : option (list Movement.row + notice) :=
  if is_get_details (clicked ui) then
    match get_movements_for (details_input ui) d with
    | [] => Some (inr (Warning "No movement found for this coach!"))
    | m :: rest => Some (inl (m :: rest))
    end
  else None.

Record page : Type := Page {
  dashboard_view : dashboard;
  add_coach_view : option notice;
  select_coach_options : list string;
  update_movement_view : option notice;
  details_view : option (list Movement.row + notice);
  reports_view : option report
}.

(** [st.date_input(label, value=default)]: the date the operator picked,
    the default while the widget is untouched. *)
Definition date_input (picked : option date) (default : date) : date :=
  match picked with
  | Some d => d
  | None => default
  end.

(** Lines 51-244: the five tabs, run from top to bottom on every run.  The
    default of "End Date" is [datetime.today()], line 184: the clock is
    read once more in every run. *)
Definition tabs (o : runtime) (ui : widgets) (w : world) : world * page :=
  let dash := dashboard_tab (database w) in
  let (d1, added) := add_coach_tab ui (database w) in
  let w1 := with_database d1 w in
  let options := list_coach_numbers (database w1) in
  let (w2, moved) :=
    update_movement_tab (select_coach_input ui) (shop_out_input ui)
      (shop_in_input ui) (work_done_input ui)
      (is_update_movement (clicked ui)) w1 in
  let details := details_tab ui (database w2) in
  let start_date := date_input (start_date_input ui) (Date 2025 1 1) in
  let (today, w3) := now w2 in
  let end_date := date_input (end_date_input ui) (on_date today) in
  let reports :=
    reports_tab o start_date end_date
      (filter_text (filter_input ui)) (database w3) in
  (w3, Page dash added options moved details reports).

(** The whole script on the file, lines 12-244. *)
Definition script (o : runtime) (ui : widgets) (s : store)
  (clk : nat -> datetime) : option (store * page) :=
  match opened (ensure_schema s) with
  | Some d =>
      let (w, p) := tabs o ui (World d clk 0) in
      Some (saved (database w), p)
  | None => None
  end.

(** A session: one run after the other on the same store and clock. *)
Fixpoint session (o : runtime) (runs : list widgets) (w : world)
  : world :=
  match runs with
  | [] => w
  | ui :: runs' => session o runs' (fst (tabs o ui w))
  end.

Definition empty_world (clk : nat -> datetime) : world :=
  World (Db empty_table empty_table) clk 0.

(** The fields of a coach that no statement of the script ever sets again
    once the row is inserted. *)
Definition identity_of (r : Coach.row)
  : Z * string * string * string :=
  (Coach.id r, Coach.coach_no r, Coach.coach_type r, Coach.date_in r).

(** What validation and the widgets guarantee of a stored coach and of a
    stored movement. *)
Definition coach_well_formed (r : Coach.row) : Prop :=
  Coach.coach_no r <> "" /\
  Coach.current_shop r <> "" /\
  (exists t, Coach.coach_type r = coach_type_text t) /\
  (exists on, date_ok on = true /\ Coach.date_in r = isoformat on).

Definition movement_well_formed (d : db) (m : Movement.row) : Prop :=
  Movement.shop_in m <> "" /\
  Movement.shop_out m <> "" /\
  (exists r, In r (rows (coaches d)) /\
             Coach.coach_no r = Movement.coach_no m).

Definition well_formed (d : db) : Prop :=
  Forall coach_well_formed (rows (coaches d)) /\
  Forall (movement_well_formed d) (rows (movements d)).

(** A click on "Add Coach" with both fields filled in. *)
Definition add_accepted (ui : widgets) : bool :=
  is_add_coach (clicked ui)
  && (truthy (coach_number_input ui) && truthy (initial_shop_input ui)).

(** A click on "Update Movement" with a coach to select and both shops
    filled in. *)
Definition move_accepted (ui : widgets) (d : db) : bool :=
  is_update_movement (clicked ui)
  && match list_coach_numbers d with [] => false | _ :: _ => true end
  && (truthy (shop_in_input ui) && truthy (shop_out_input ui)).

(** The coach number the select box holds. *)
Definition chosen_coach (ui : widgets) (d : db) : string :=
  nth (select_coach_input ui) (list_coach_numbers d)
    (hd "" (list_coach_numbers d)).

(** The order of [datetime.datetime], down to the second. *)
Definition datetime_compare (a b : datetime) : comparison :=
  match date_compare (on_date a) (on_date b) with
  | Eq => match hour a ?= hour b with
          | Eq => match minute a ?= minute b with
                  | Eq => second a ?= second b
                  | c => c
                  end
          | c => c
          end
  | c => c
  end.

(* ================================================================= *)
(** ** A small store to run the operations on *)

Definition sample_date : date := Date 2025 1 10.

(** Two coaches that share the number C100, and a third one. *)
Definition sample_db : db :=
  fst (add_coach "C300" "General" (Date 2025 6 30) "Shop A"
    (fst (add_coach "C100" "Sleeper" (Date 2025 2 1) "Shop D"
      (fst (add_coach "C100" "AC" sample_date "Shop A"
        (Db empty_table empty_table)))))).

(** A clock whose first two readings straddle the turn of a second. *)
Definition turning_clock (n : nat) : datetime :=
  match n with
  | O => DateTime (Date 2025 1 10) 9 30 59 999998
  | _ => DateTime (Date 2025 1 10) 9 31 0 2
  end.

(** A clock that stands within one second. *)
Definition steady_clock (n : nat) : datetime :=
  DateTime (Date 2025 1 10) 9 30 15 (Z.of_nat n).

Definition sample_world : world := World sample_db steady_clock 0.
Definition turning_world : world := World sample_db turning_clock 0.

(** Widget values for three runs: a coach is added, a movement is recorded
    for the first coach of the select box, and a rerun without a submit. *)
Definition press (b : button) : widgets :=
  Widgets "C400" AC (Date 2025 3 5) "Shop B" 0 "Shop A" "Shop C"
    "Wheel check" "C100" None (Some (Date 2025 12 31)) AllTypes b.

(** Python 3.11 on Linux, and Python 3.13 on Linux. *)
Definition linux_311 : runtime := Runtime posix terminator_only.
Definition linux_313 : runtime := Runtime posix every_line_break.

(** A coach whose number holds a carriage return. *)
Definition cr_coach : Coach.row :=
  Coach.Row 1 ("car" ++ String CR "ret") "AC" "2025-01-10" "Shop A".

Definition sample_session : list widgets :=
  [press AddCoachButton; press UpdateMovementButton; press NoButton].

Definition moved_db : db :=
  database
    (fst (record_movement "C100" "Shop A" "Shop B" "Wheel check"
            sample_world)).

(* ================================================================= *)
(** ** Add Coach *)

Lemma truthy_nonempty (s : string) : truthy s = true <-> s <> "".
Proof.
  destruct s; simpl; split; intro H; congruence.
Qed.

Lemma select_all {R : Type} (t : table R) : select (fun _ => true) t = rows t.
Proof.
  unfold select. induction (rows t) as [|r l IH]; simpl; [reflexivity|].
  now rewrite IH.
Qed.

(** C4: with a non-empty coach number and a non-empty shop, [add_coach]
    followed by [list_coaches] shows the rows listed before, in the same
    order, and exactly one more row; that row carries the arguments, its
    [current_shop] is [shop]. *)
Theorem add_coach_lists_one_more
  (coach_no coach_type : string) (date_in : date) (shop : string) (d : db) :
  coach_no <> "" -> shop <> "" ->
  exists r : Coach.row,
    list_coaches (fst (add_coach coach_no coach_type date_in shop d))
      = (list_coaches d ++ [r])%list /\
    Coach.current_shop r = shop /\
    Coach.coach_no r = coach_no /\
    Coach.coach_type r = coach_type /\
    Coach.date_in r = isoformat date_in /\
    List.length
      (list_coaches (fst (add_coach coach_no coach_type date_in shop d)))
      = S (List.length (list_coaches d)).
Proof.
  intros Hc Hs.
  apply truthy_nonempty in Hc. apply truthy_nonempty in Hs.
  unfold add_coach. rewrite Hc, Hs. simpl.
  eexists. unfold list_coaches. rewrite !select_all. simpl.
  split; [reflexivity|]. simpl.
  repeat (split; [reflexivity|]).
  rewrite length_app. simpl. lia.
Qed.

(** C5: with an empty coach number or an empty shop, [add_coach] leaves
    the store as it was, answers with a warning, and [list_coaches] returns
    the rows it returned before. *)
Theorem add_coach_blank_is_refused
  (coach_no coach_type : string) (date_in : date) (shop : string) (d : db) :
  coach_no = "" \/ shop = "" ->
  fst (add_coach coach_no coach_type date_in shop d) = d /\
  snd (add_coach coach_no coach_type date_in shop d)
    = Warning "Please fill in all details." /\
  list_coaches (fst (add_coach coach_no coach_type date_in shop d))
    = list_coaches d.
Proof.
  intros [-> | ->]; unfold add_coach; simpl.
  - repeat split.
  - rewrite andb_false_r. repeat split.
Qed.

Lemma add_coach_blank_is_refused_witness :
  fst (add_coach "" "AC" sample_date "Shop A" sample_db) = sample_db /\
  snd (add_coach "" "AC" sample_date "Shop A" sample_db)
    = Warning "Please fill in all details." /\
  list_coaches (fst (add_coach "" "AC" sample_date "Shop A" sample_db))
    = list_coaches sample_db.
Proof.
  apply (add_coach_blank_is_refused "" "AC" sample_date "Shop A" sample_db).
  left. reflexivity.
Defined.

Lemma add_coach_lists_one_more_witness :
  exists r : Coach.row,
    list_coaches (fst (add_coach "C200" "Sleeper" sample_date "Shop C"
                         sample_db))
      = (list_coaches sample_db ++ [r])%list /\
    Coach.current_shop r = "Shop C" /\
    Coach.coach_no r = "C200" /\
    Coach.coach_type r = "Sleeper" /\
    Coach.date_in r = isoformat sample_date /\
    List.length
      (list_coaches (fst (add_coach "C200" "Sleeper" sample_date "Shop C"
                            sample_db)))
      = S (List.length (list_coaches sample_db)).
Proof.
  apply (add_coach_lists_one_more "C200" "Sleeper" sample_date "Shop C"
           sample_db); discriminate.
Defined.

(* ================================================================= *)
(** ** Schema *)

Lemma create_table_if_not_exists_keeps {R : Type} (t : table R) :
  create_table_if_not_exists (Some t) = Some t.
Proof. reflexivity. Qed.

Lemma create_table_if_not_exists_twice {R : Type} (t : option (table R)) :
  create_table_if_not_exists (create_table_if_not_exists t)
  = create_table_if_not_exists t.
Proof. destruct t; reflexivity. Qed.

Lemma opened_ensure_schema (s : store) :
  exists d : db, opened (ensure_schema s) = Some d.
Proof.
  destruct s as [[c|] [m|]]; simpl; eexists; reflexivity.
Qed.

(** C7: [ensure_schema] changes nothing in a store that holds both tables;
    run twice it leaves the store it leaves when run once; a table that is
    there before is there after, with its sequence and its rows; and both
    tables are there after. *)
Theorem ensure_schema_idempotent (s : store) :
  (forall c m, coaches_table s = Some c -> movements_table s = Some m ->
               ensure_schema s = s) /\
  ensure_schema (ensure_schema s) = ensure_schema s /\
  (forall c, coaches_table s = Some c ->
             coaches_table (ensure_schema s) = Some c) /\
  (forall m, movements_table s = Some m ->
             movements_table (ensure_schema s) = Some m) /\
  (exists c m, ensure_schema s = Store (Some c) (Some m)).
Proof.
  destruct s as [c m]; unfold ensure_schema; simpl.
  repeat split.
  - intros c' m' -> ->. reflexivity.
  - now rewrite !create_table_if_not_exists_twice.
  - intros c' ->. reflexivity.
  - intros m' ->. reflexivity.
  - destruct c, m; simpl; eauto.
Qed.

Lemma ensure_schema_idempotent_witness :
  ensure_schema (saved sample_db) = saved sample_db /\
  coaches_table (ensure_schema (saved sample_db)) = Some (coaches sample_db).
Proof.
  destruct (ensure_schema_idempotent (saved sample_db))
    as (Hsame & _ & Hc & _ & _).
  split.
  - apply (Hsame (coaches sample_db) (movements sample_db)); reflexivity.
  - apply Hc. reflexivity.
Defined.

(* ================================================================= *)
(** ** Statements on a table *)

Section StatementFacts.
Context {R : Type} (rowid : R -> Z).

Lemma rows_insert (mk : Z -> R) (t : table R) :
  rows (insert rowid mk t) = (rows t ++ [mk (next_rowid rowid t)])%list.
Proof. reflexivity. Qed.

Lemma max_rowid_bounds (l : list R) (r : R) :
  In r l -> rowid r <= max_rowid rowid l.
Proof.
  induction l as [|x l IH]; simpl; [tauto|].
  intros [-> | Hin]; [lia|]. specialize (IH Hin). lia.
Qed.

(** The rowid AUTOINCREMENT hands out is above every rowid in the table. *)
Lemma next_rowid_fresh (t : table R) (r : R) :
  In r (rows t) -> rowid r < next_rowid rowid t.
Proof.
  intro Hin. apply max_rowid_bounds in Hin. unfold next_rowid. lia.
Qed.

Lemma update_length (p : R -> bool) (f : R -> R) (t : table R) :
  List.length (rows (update p f t)) = List.length (rows t).
Proof. unfold update; simpl. apply length_map. Qed.

(** An UPDATE whose WHERE clause matches no row leaves the table as it is. *)
Lemma update_no_match (p : R -> bool) (f : R -> R) (t : table R) :
  rowcount p t = 0%nat -> update p f t = t.
Proof.
  destruct t as [n l]. unfold rowcount, update; simpl. intro H.
  f_equal. induction l as [|x l IH]; simpl in *; [reflexivity|].
  destruct (p x); simpl in H; [discriminate|]. now rewrite IH.
Qed.

Lemma rowcount_none (p : R -> bool) (t : table R) :
  (forall r, In r (rows t) -> p r = false) -> rowcount p t = 0%nat.
Proof.
  unfold rowcount. induction (rows t) as [|x l IH]; simpl; intro H.
  - reflexivity.
  - rewrite (H x (or_introl eq_refl)). apply IH. intros r Hr.
    apply H. now right.
Qed.

Lemma select_insert (p : R -> bool) (mk : Z -> R) (t : table R) :
  select p (insert rowid mk t)
  = (select p t
     ++ (if p (mk (next_rowid rowid t))
         then [mk (next_rowid rowid t)] else []))%list.
Proof. unfold select. rewrite rows_insert, filter_app. reflexivity. Qed.
End StatementFacts.

(* ================================================================= *)
(** ** Update Movement *)

(** What a submission with both shops filled in does, spelled out. *)
Lemma record_movement_accepted
  (coach_no shop_out shop_in work_done : string) (w : world) :
  shop_in <> "" -> shop_out <> "" ->
  record_movement coach_no shop_out shop_in work_done w
  = (World
       (Db (update (fun r => (Coach.coach_no r =? coach_no)%string)
              (Coach.set_current_shop shop_in) (coaches (database w)))
           (insert Movement.id
              (fun i => Movement.Row i coach_no shop_in shop_out work_done
                          (strftime (clock w (reads w)))
                          (strftime (clock w (S (reads w)))))
              (movements (database w))))
       (clock w) (S (S (reads w))),
     Success ("✅ Movement updated for Coach " ++ coach_no)).
Proof.
  intros Hin Hout.
  apply truthy_nonempty in Hin. apply truthy_nonempty in Hout.
  unfold record_movement. rewrite Hin, Hout. reflexivity.
Qed.

Lemma record_movement_refused
  (coach_no shop_out shop_in work_done : string) (w : world) :
  shop_in = "" \/ shop_out = "" ->
  record_movement coach_no shop_out shop_in work_done w
  = (w, Warning "Please fill in both shop fields.").
Proof.
  intros [-> | ->]; unfold record_movement; simpl; [reflexivity|].
  now rewrite andb_false_r.
Qed.

(** C1: a movement recorded for a coach number that is in the table, with
    both shops filled in: afterwards every coach with that number (there is
    one) has [current_shop = shop_in], and [get_movements_for] returns the
    rows it returned before followed by one new row, whose id is above every
    id of the table and whose [shop_in], [shop_out] and [work_done] are the
    arguments. *)
Theorem record_movement_moves_the_coach
  (coach_no shop_out shop_in work_done : string) (w : world) :
  shop_in <> "" -> shop_out <> "" ->
  (exists r, In r (list_coaches (database w)) /\ Coach.coach_no r = coach_no) ->
  let w' := fst (record_movement coach_no shop_out shop_in work_done w) in
  (exists r, In r (list_coaches (database w')) /\
             Coach.coach_no r = coach_no) /\
  (forall r, In r (list_coaches (database w')) ->
             Coach.coach_no r = coach_no -> Coach.current_shop r = shop_in) /\
  exists m : Movement.row,
    get_movements_for coach_no (database w')
      = (get_movements_for coach_no (database w) ++ [m])%list /\
    Movement.coach_no m = coach_no /\
    Movement.shop_in m = shop_in /\
    Movement.shop_out m = shop_out /\
    Movement.work_done m = work_done /\
    (forall m', In m' (rows (movements (database w))) ->
                Movement.id m' < Movement.id m).
Proof.
  intros Hin Hout (r0 & Hr0 & Hno) w'. subst w'.
  rewrite (record_movement_accepted _ _ _ _ w Hin Hout). simpl.
  unfold list_coaches in *. rewrite select_all in *. simpl.
  repeat split.
  - exists (Coach.set_current_shop shop_in r0). split; [|exact Hno].
    apply in_map_iff. exists r0. split; [|exact Hr0].
    rewrite Hno, String.eqb_refl. reflexivity.
  - intros r Hr Hc. apply in_map_iff in Hr. destruct Hr as (x & Hx & _).
    destruct (String.eqb_spec (Coach.coach_no x) coach_no) as [_|Hne].
    + subst r. reflexivity.
    + subst r. contradiction.
  - eexists. unfold get_movements_for; simpl.
    rewrite (select_insert Movement.id). simpl.
    rewrite String.eqb_refl.
    split; [reflexivity|]. simpl. repeat (split; [reflexivity|]).
    intros m' Hm'. now apply (next_rowid_fresh Movement.id).
Qed.

Lemma record_movement_moves_the_coach_witness :
  map Coach.current_shop
    (filter (fun r => (Coach.coach_no r =? "C100")%string)
       (list_coaches (database
          (fst (record_movement "C100" "Shop A" "Shop B" "Wheel check"
                  sample_world)))))
  = ["Shop B"; "Shop B"] /\
  (forall r,
     In r (list_coaches (database
       (fst (record_movement "C100" "Shop A" "Shop B" "Wheel check"
               sample_world)))) ->
     Coach.coach_no r = "C100" -> Coach.current_shop r = "Shop B").
Proof.
  split; [reflexivity|].
  apply (record_movement_moves_the_coach
           "C100" "Shop A" "Shop B" "Wheel check" sample_world).
  - discriminate.
  - discriminate.
  - eexists. split; [left; reflexivity | reflexivity].
Defined.

(** C2: a movement recorded for a coach number that no row of the coaches
    table has: the WHERE clause of the UPDATE matches zero rows and the
    coaches table stays as it is, the movement row is appended all the same,
    and the caller gets the success notice, no error. *)
Theorem record_movement_unknown_coach
  (coach_no shop_out shop_in work_done : string) (w : world) :
  shop_in <> "" -> shop_out <> "" ->
  (forall r, In r (list_coaches (database w)) ->
             Coach.coach_no r <> coach_no) ->
  let w' := fst (record_movement coach_no shop_out shop_in work_done w) in
  rowcount (fun r => (Coach.coach_no r =? coach_no)%string)
    (coaches (database w)) = 0%nat /\
  coaches (database w') = coaches (database w) /\
  (exists m : Movement.row,
     rows (movements (database w'))
       = (rows (movements (database w)) ++ [m])%list /\
     Movement.coach_no m = coach_no /\
     Movement.shop_in m = shop_in /\
     Movement.shop_out m = shop_out /\
     Movement.work_done m = work_done) /\
  snd (record_movement coach_no shop_out shop_in work_done w)
    = Success ("✅ Movement updated for Coach " ++ coach_no).
Proof.
  intros Hin Hout Hnone w'. subst w'.
  rewrite (record_movement_accepted _ _ _ _ w Hin Hout). simpl.
  assert (Hcount :
    rowcount (fun r => (Coach.coach_no r =? coach_no)%string)
      (coaches (database w)) = 0%nat).
  { apply rowcount_none. intros r Hr. apply String.eqb_neq, Hnone.
    unfold list_coaches. now rewrite select_all. }
  split; [exact Hcount|].
  split; [now apply update_no_match|].
  split; [|reflexivity].
  eexists. split; [reflexivity|]. simpl. repeat split.
Qed.

Lemma record_movement_unknown_coach_witness :
  coaches (database
    (fst (record_movement "C999" "Shop A" "Shop B" "Paint" sample_world)))
  = coaches sample_db /\
  snd (record_movement "C999" "Shop A" "Shop B" "Paint" sample_world)
  = Success "✅ Movement updated for Coach C999".
Proof.
  destruct (record_movement_unknown_coach
              "C999" "Shop A" "Shop B" "Paint" sample_world)
    as (_ & Hc & _ & Hn).
  - discriminate.
  - discriminate.
  - intros r Hr. simpl in Hr.
    destruct Hr as [<- | [<- | [<- | []]]]; discriminate.
  - split; [exact Hc | exact Hn].
Defined.

Lemma update_current_shop_rows (coach_no shop_in : string)
  (l : list Coach.row) :
  Forall2 (moved_to coach_no shop_in) l
    (map (fun r => if (Coach.coach_no r =? coach_no)%string
                   then Coach.set_current_shop shop_in r else r) l).
Proof.
  induction l as [|r l IH]; simpl; constructor; [|exact IH].
  unfold moved_to.
  destruct (String.eqb_spec (Coach.coach_no r) coach_no) as [He|Hne];
    simpl; repeat split; tauto.
Qed.

(** C10: on a submission with both shops filled in, the coaches table keeps
    its rows in number and order and its sequence; row by row, the id, the
    coach number, the type and the date are kept, every row with the given
    coach number (all of them when the number occurs more than once) gets
    [current_shop = shop_in], and every row with another number is the row
    it was. *)
Theorem record_movement_coach_frame
  (coach_no shop_out shop_in work_done : string) (w : world) :
  shop_in <> "" -> shop_out <> "" ->
  let before := coaches (database w) in
  let after :=
    coaches (database
      (fst (record_movement coach_no shop_out shop_in work_done w))) in
  Forall2 (moved_to coach_no shop_in) (rows before) (rows after) /\
  List.length (rows after) = List.length (rows before) /\
  seq after = seq before.
Proof.
  intros Hin Hout before after. subst before after.
  rewrite (record_movement_accepted _ _ _ _ w Hin Hout). simpl.
  split; [apply update_current_shop_rows|].
  split; [apply length_map | reflexivity].
Qed.

Lemma record_movement_coach_frame_witness :
  map (fun r => (Coach.id r, Coach.coach_no r, Coach.current_shop r))
    (rows (coaches (database
       (fst (record_movement "C100" "Shop A" "Shop B" "Wheel check"
               sample_world)))))
  = [(1, "C100", "Shop B"); (2, "C100", "Shop B"); (3, "C300", "Shop A")] /\
  Forall2 (moved_to "C100" "Shop B")
    (rows (coaches sample_db))
    (rows (coaches (database
       (fst (record_movement "C100" "Shop A" "Shop B" "Wheel check"
               sample_world))))).
Proof.
  split; [reflexivity|].
  apply (record_movement_coach_frame
           "C100" "Shop A" "Shop B" "Wheel check" sample_world);
    discriminate.
Defined.

(** On the path the operator can take the given coach number is always in
    the table: the select box offers the numbers that are there. *)
Lemma update_movement_tab_known_coach (choice : nat) (w : world)
  (first : string) (rest : list string) :
  list_coach_numbers (database w) = first :: rest ->
  exists r, In r (list_coaches (database w)) /\
            Coach.coach_no r = nth choice (first :: rest) first.
Proof.
  intro Hl. unfold list_coach_numbers, list_coaches in *.
  assert (Hin : In (nth choice (first :: rest) first)
                  (map Coach.coach_no
                     (select (fun _ => true) (coaches (database w))))).
  { rewrite Hl. destruct (Nat.lt_ge_cases choice (List.length (first :: rest))).
    - now apply nth_In.
    - rewrite nth_overflow by assumption. now left. }
  apply in_map_iff in Hin. destruct Hin as (r & Hr & Hin). eauto.
Qed.

(* ================================================================= *)
(** ** Movements are only ever appended *)

Lemma add_coach_movements
  (coach_no coach_type : string) (date_in : date) (shop : string) (d : db) :
  movements (fst (add_coach coach_no coach_type date_in shop d))
  = movements d.
Proof.
  unfold add_coach. destruct (truthy coach_no && truthy shop); reflexivity.
Qed.

Lemma record_movement_movements
  (coach_no shop_out shop_in work_done : string) (w : world) :
  exists added : list Movement.row,
    rows (movements (database
      (fst (record_movement coach_no shop_out shop_in work_done w))))
    = (rows (movements (database w)) ++ added)%list /\
    (List.length added <= 1)%nat.
Proof.
  unfold record_movement.
  destruct (truthy shop_in && truthy shop_out); simpl.
  - eexists. split; [reflexivity | simpl; lia].
  - exists []. rewrite app_nil_r. split; [reflexivity | simpl; lia].
Qed.

(** C9: whatever operation is performed, the rows of the movements table
    afterwards are the rows before, unchanged and in the same order,
    followed by the rows the operation added: at most one, and none unless
    the operation is [record_movement]. *)
Theorem movements_are_append_only (op : operation) (w : world) :
  exists added : list Movement.row,
    rows (movements (database (fst (perform op w))))
    = (rows (movements (database w)) ++ added)%list /\
    (List.length added <= 1)%nat /\
    ((forall c so si wd, op <> RecordMovement c so si wd) -> added = []).
Proof.
  destruct op as [c t dt s | c so si wd | | | c | s e t | o data | data];
    simpl;
    try (exists []; rewrite app_nil_r;
         split; [reflexivity | split; [simpl; lia | reflexivity]]).
  - pose proof (add_coach_movements c t dt s (database w)) as H.
    destruct (add_coach c t dt s (database w)) as [d n]. simpl in *.
    exists []. rewrite app_nil_r, H.
    split; [reflexivity | split; [simpl; lia | reflexivity]].
  - destruct (record_movement_movements c so si wd w) as (added & H & Hlen).
    destruct (record_movement c so si wd w) as [w' n]. simpl in *.
    exists added. split; [exact H | split; [exact Hlen|]].
    intro Hnot. exfalso. exact (Hnot c so si wd eq_refl).
Qed.

Lemma movements_are_append_only_witness :
  rows (movements (database (fst (perform ListCoaches sample_world))))
  = rows (movements sample_db).
Proof.
  destruct (movements_are_append_only ListCoaches sample_world)
    as (added & H & _ & Hnone).
  rewrite H, Hnone, app_nil_r; [reflexivity | discriminate].
Defined.

(* ================================================================= *)
(** ** Rowids stay in order *)

Lemma strongly_sorted_snoc (l : list Z) (x : Z) :
  StronglySorted Z.lt l -> Forall (fun y => y < x) l ->
  StronglySorted Z.lt (l ++ [x]).
Proof.
  induction 1 as [|y l Hs IH Hall]; intro Hlt; simpl.
  - repeat constructor.
  - inversion Hlt as [|? ? Hy Hl]; subst.
    constructor; [now apply IH|].
    apply Forall_app. split; [exact Hall | now repeat constructor].
Qed.

Section RowidOrder.
Context {R : Type} (rowid : R -> Z).

Lemma insert_rowid_order (mk : Z -> R) (t : table R) :
  (forall i, rowid (mk i) = i) ->
  rowid_order rowid t -> rowid_order rowid (insert rowid mk t).
Proof.
  intros Hmk Ht. unfold rowid_order in *. rewrite rows_insert, map_app.
  simpl. rewrite Hmk. apply strongly_sorted_snoc; [exact Ht|].
  apply Forall_forall. intros y Hy. apply in_map_iff in Hy.
  destruct Hy as (r & <- & Hr). now apply next_rowid_fresh.
Qed.

Lemma update_rowid_order (p : R -> bool) (f : R -> R) (t : table R) :
  (forall r, rowid (f r) = rowid r) ->
  rowid_order rowid t -> rowid_order rowid (update p f t).
Proof.
  intros Hf Ht. unfold rowid_order in *. simpl.
  rewrite map_map.
  erewrite map_ext; [exact Ht|].
  intro r. simpl. destruct (p r); [apply Hf | reflexivity].
Qed.
End RowidOrder.

Lemma empty_db_ok : db_ok (Db empty_table empty_table).
Proof. split; constructor. Qed.

Lemma add_coach_ok
  (coach_no coach_type : string) (date_in : date) (shop : string) (d : db) :
  db_ok d -> db_ok (fst (add_coach coach_no coach_type date_in shop d)).
Proof.
  intros [Hc Hm]. unfold add_coach.
  destruct (truthy coach_no && truthy shop); simpl; [|now split].
  split; [|exact Hm]. now apply insert_rowid_order.
Qed.

Lemma record_movement_ok
  (coach_no shop_out shop_in work_done : string) (w : world) :
  db_ok (database w) ->
  db_ok (database
    (fst (record_movement coach_no shop_out shop_in work_done w))).
Proof.
  intros [Hc Hm]. unfold record_movement.
  destruct (truthy shop_in && truthy shop_out); simpl; [|now split].
  split.
  - now apply update_rowid_order.
  - now apply insert_rowid_order.
Qed.

(** Every operation keeps both tables in rowid order, with every id there
    once: the ids AUTOINCREMENT hands out only grow. *)
Lemma perform_ok (op : operation) (w : world) :
  db_ok (database w) -> db_ok (database (fst (perform op w))).
Proof.
  intro H.
  destruct op as [c t dt s | c so si wd | | | c | s e t | o data | data];
    simpl; try exact H.
  - pose proof (add_coach_ok c t dt s _ H) as H'.
    destruct (add_coach c t dt s (database w)). exact H'.
  - pose proof (record_movement_ok c so si wd _ H) as H'.
    destruct (record_movement c so si wd w). exact H'.
Qed.

(** A run of the script finds both tables, whatever the file held. *)
Lemma run_succeeds (op : operation) (s : store) (clk : nat -> datetime) :
  exists s' out, run op s clk = Some (s', out).
Proof.
  unfold run. destruct (opened_ensure_schema s) as (d & ->).
  destruct (perform op (World d clk 0)). eauto.
Qed.

Lemma perform_keeps_movements (op : operation) (w : world) :
  exists added : list Movement.row,
    rows (movements (database (fst (perform op w))))
    = (rows (movements (database w)) ++ added)%list.
Proof.
  destruct op as [cn t dt sh | cn so si wd | | | cn | sd ed t | o data | data];
    simpl; try (exists []; now rewrite app_nil_r).
  - pose proof (add_coach_movements cn t dt sh (database w)) as H.
    destruct (add_coach cn t dt sh (database w)). simpl in *.
    exists []. now rewrite app_nil_r, H.
  - destruct (record_movement_movements cn so si wd w) as (added & H & _).
    destruct (record_movement cn so si wd w). simpl in *. eauto.
Qed.

(** The same for a whole run of the script, schema creation included: a
    movements table that is in the file keeps its rows. *)
Lemma run_keeps_movements (op : operation) (s : store)
  (clk : nat -> datetime) (m : table Movement.row) :
  movements_table s = Some m ->
  exists s' out m' added,
    run op s clk = Some (s', out) /\
    movements_table s' = Some m' /\
    rows m' = (rows m ++ added)%list.
Proof.
  intro Hm. destruct s as [c ms]. simpl in Hm. subst ms.
  unfold run.
  assert (Hopen : exists c', opened (ensure_schema (Store c (Some m)))
                             = Some (Db c' m))
    by (destruct c; eexists; reflexivity).
  destruct Hopen as (c' & ->).
  destruct (perform_keeps_movements op (World (Db c' m) clk 0))
    as (added & Happ).
  destruct (perform op (World (Db c' m) clk 0)) as [w' out]. simpl in *.
  exists (saved (database w')), out, (movements (database w')), added.
  repeat split. exact Happ.
Qed.

(* ================================================================= *)
(** ** Zero-padded decimals and the order of TEXT *)

Lemma upto_complete (n k : Z) : 0 <= k < n -> In k (upto n).
Proof.
  intro H. unfold upto. apply in_map_iff. exists (Z.to_nat k).
  split; [lia|]. apply in_seq. lia.
Qed.

(** ["%02d"] and ["%04d"] print exactly two and four digits while the
    number fits; checked on every number of the range. *)
Lemma fmt0_2_digits (n : Z) : 0 <= n < 100 -> fmt0 2 n = digits_of 2 n.
Proof.
  intro H.
  assert (Hall : forallb (fun k => (fmt0 2 k =? digits_of 2 k)%string)
                   (upto 100) = true) by (vm_compute; reflexivity).
  rewrite forallb_forall in Hall.
  apply String.eqb_eq, Hall, upto_complete. lia.
Qed.

Lemma fmt0_4_digits (n : Z) : 0 <= n < 10000 -> fmt0 4 n = digits_of 4 n.
Proof.
  intro H.
  assert (Hall : forallb (fun k => (fmt0 4 k =? digits_of 4 k)%string)
                   (upto 10000) = true) by (vm_compute; reflexivity).
  rewrite forallb_forall in Hall.
  apply String.eqb_eq, Hall, upto_complete. lia.
Qed.

Lemma ascii_compare_refl (c : ascii) : Ascii.compare c c = Eq.
Proof. unfold Ascii.compare. apply N.compare_refl. Qed.

Lemma compare_refl (s : string) : String.compare s s = Eq.
Proof.
  induction s as [|c s IH]; simpl; [reflexivity|].
  now rewrite ascii_compare_refl.
Qed.

Lemma compare_cons_same (c : ascii) (s t : string) :
  String.compare (String c s) (String c t) = String.compare s t.
Proof. simpl. now rewrite ascii_compare_refl. Qed.

(** Behind prefixes of one length the order is lexicographic. *)
Lemma compare_app (s1 s2 t1 t2 : string) :
  String.length s1 = String.length s2 ->
  String.compare (s1 ++ t1) (s2 ++ t2)
  = match String.compare s1 s2 with
    | Eq => String.compare t1 t2
    | c => c
    end.
Proof.
  revert s2. induction s1 as [|c1 s1 IH]; intros [|c2 s2] Hlen; simpl in *;
    try discriminate.
  - reflexivity.
  - destruct (Ascii.compare c1 c2); try reflexivity.
    apply IH. congruence.
Qed.

Lemma length_append (s t : string) :
  String.length (s ++ t) = (String.length s + String.length t)%nat.
Proof. induction s; simpl; congruence. Qed.

Lemma append_inj (s1 s2 t1 t2 : string) :
  String.length s1 = String.length s2 ->
  s1 ++ t1 = s2 ++ t2 -> s1 = s2 /\ t1 = t2.
Proof.
  revert s2. induction s1 as [|c1 s1 IH]; intros [|c2 s2] Hlen H;
    simpl in *; try discriminate.
  - now split.
  - injection H as -> H. injection Hlen as Hlen.
    destruct (IH s2 Hlen H) as [-> ->]. now split.
Qed.

Lemma string_tail_inj (c : ascii) (s t : string) :
  String c s = String c t -> s = t.
Proof. now intros [= ->]. Qed.

Lemma digits_of_length (k : nat) (n : Z) : String.length (digits_of k n) = k.
Proof.
  revert n. induction k as [|k IH]; intro n; simpl; [reflexivity|].
  rewrite length_append, IH. simpl. lia.
Qed.

Lemma digit_compare (a b : Z) :
  0 <= a < 10 -> 0 <= b < 10 -> Ascii.compare (digit a) (digit b) = (a ?= b).
Proof.
  intros Ha Hb. unfold Ascii.compare, digit.
  rewrite !N_ascii_embedding by lia.
  rewrite <- N2Z.inj_compare.
  rewrite !N2Z.inj_add, !Z2N.id by lia.
  apply Z.add_compare_mono_l.
Qed.

Lemma compare_div10 (a b : Z) :
  0 <= a -> 0 <= b ->
  (a ?= b) = match a / 10 ?= b / 10 with
             | Eq => a mod 10 ?= b mod 10
             | c => c
             end.
Proof.
  intros Ha Hb.
  pose proof (Z.div_mod a 10 ltac:(lia)) as Ea.
  pose proof (Z.div_mod b 10 ltac:(lia)) as Eb.
  pose proof (Z.mod_pos_bound a 10 ltac:(lia)) as Ba.
  pose proof (Z.mod_pos_bound b 10 ltac:(lia)) as Bb.
  destruct (Z.compare_spec (a / 10) (b / 10)) as [He|Hl|Hg].
  - destruct (Z.compare_spec (a mod 10) (b mod 10)).
    + apply Z.compare_eq_iff. lia.
    + apply Z.compare_lt_iff. lia.
    + apply Z.compare_gt_iff. lia.
  - apply Z.compare_lt_iff. lia.
  - apply Z.compare_gt_iff. lia.
Qed.

(** Numbers printed on one width compare as TEXT the way they compare as
    numbers. *)
Lemma digits_of_compare (k : nat) (a b : Z) :
  0 <= a < 10 ^ Z.of_nat k -> 0 <= b < 10 ^ Z.of_nat k ->
  String.compare (digits_of k a) (digits_of k b) = (a ?= b).
Proof.
  revert a b. induction k as [|k IH]; intros a b Ha Hb.
  - simpl in *. symmetry. apply Z.compare_eq_iff. lia.
  - cbn [digits_of]. rewrite compare_app by now rewrite !digits_of_length.
    rewrite Nat2Z.inj_succ, Z.pow_succ_r in Ha, Hb by lia.
    rewrite IH.
    + rewrite (compare_div10 a b) by lia.
      destruct (a / 10 ?= b / 10); try reflexivity.
      simpl. rewrite digit_compare by (apply Z.mod_pos_bound; lia).
      destruct (a mod 10 ?= b mod 10); reflexivity.
    + split; [apply Z.div_pos; lia | apply Z.div_lt_upper_bound; lia].
    + split; [apply Z.div_pos; lia | apply Z.div_lt_upper_bound; lia].
Qed.

Lemma digits_of_inj (k : nat) (a b : Z) :
  0 <= a < 10 ^ Z.of_nat k -> 0 <= b < 10 ^ Z.of_nat k ->
  digits_of k a = digits_of k b -> a = b.
Proof.
  intros Ha Hb H. apply Z.compare_eq_iff.
  rewrite <- (digits_of_compare k) by assumption.
  rewrite H. apply compare_refl.
Qed.

Lemma date_ok_bounds (d : date) :
  date_ok d = true ->
  0 <= year d < 10 ^ Z.of_nat 4 /\ 0 <= month d < 10 ^ Z.of_nat 2 /\
  0 <= day d < 10 ^ Z.of_nat 2.
Proof.
  unfold date_ok, MINYEAR, MAXYEAR, days_in_month. intro H.
  repeat (apply andb_prop in H; destruct H as [H ?]).
  assert (day d <= 31).
  { destruct (month d =? 2); [destruct (is_leap (year d)); lia|].
    destruct ((month d =? 4) || (month d =? 6) || (month d =? 9)
              || (month d =? 11)); lia. }
  change (10 ^ Z.of_nat 4) with 10000. change (10 ^ Z.of_nat 2) with 100.
  lia.
Qed.

Lemma datetime_ok_bounds (t : datetime) :
  datetime_ok t = true ->
  date_ok (on_date t) = true /\
  0 <= hour t < 10 ^ Z.of_nat 2 /\ 0 <= minute t < 10 ^ Z.of_nat 2 /\
  0 <= second t < 10 ^ Z.of_nat 2.
Proof.
  unfold datetime_ok. intro H.
  do 8 (apply andb_prop in H; destruct H as [H ?]).
  change (10 ^ Z.of_nat 2) with 100. split; [assumption | lia].
Qed.

Lemma isoformat_digits (d : date) :
  date_ok d = true ->
  isoformat d
  = digits_of 4 (year d) ++ "-" ++ digits_of 2 (month d) ++ "-"
    ++ digits_of 2 (day d).
Proof.
  intro H. apply date_ok_bounds in H.
  change (10 ^ Z.of_nat 4) with 10000 in H.
  change (10 ^ Z.of_nat 2) with 100 in H.
  unfold isoformat.
  now rewrite fmt0_4_digits, !fmt0_2_digits by lia.
Qed.

(** ISO dates compare as TEXT the way the dates compare. *)
Lemma isoformat_compare (a b : date) :
  date_ok a = true -> date_ok b = true ->
  String.compare (isoformat a) (isoformat b) = date_compare a b.
Proof.
  intros Ha Hb. rewrite !isoformat_digits by assumption.
  apply date_ok_bounds in Ha, Hb.
  destruct Ha as (Hy & Hm & Hd), Hb as (Hy' & Hm' & Hd').
  unfold date_compare.
  rewrite compare_app, digits_of_compare by (rewrite ?digits_of_length; auto).
  destruct (year a ?= year b); try reflexivity.
  change ("-" ++ ?x) with (String "-" x). rewrite compare_cons_same.
  rewrite compare_app, digits_of_compare by (rewrite ?digits_of_length; auto).
  destruct (month a ?= month b); try reflexivity.
  change ("-" ++ ?x) with (String "-" x). rewrite compare_cons_same.
  now apply digits_of_compare.
Qed.

Lemma isoformat_leb (a b : date) :
  date_ok a = true -> date_ok b = true ->
  String.leb (isoformat a) (isoformat b) = date_leb a b.
Proof.
  intros Ha Hb. unfold String.leb, date_leb.
  now rewrite isoformat_compare.
Qed.

Lemma int_str_str_int (n : Z) : int_str (str_int n) = Some n.
Proof.
  unfold int_str, str_int.
  rewrite NilZero.isi.
  - simpl. now rewrite DecimalZ.of_to.
  - destruct n; simpl; try discriminate.
    intros [= H]. now apply Unsigned.to_uint_nonnil in H.
  - destruct n; simpl; try discriminate.
    intros [= H]. now apply Unsigned.to_uint_nonnil in H.
Qed.

Lemma str_int_inj (a b : Z) : str_int a = str_int b -> a = b.
Proof.
  intro H. apply (f_equal int_str) in H.
  rewrite !int_str_str_int in H. now injection H.
Qed.

(** From the year 1000 on the year is printed on four digits. *)
Lemma str_int_4_digits (n : Z) :
  1000 <= n < 10000 -> str_int n = digits_of 4 n.
Proof.
  intro H.
  assert (Hall : forallb (fun k => (k <? 1000)
                                   || (str_int k =? digits_of 4 k)%string)
                   (upto 10000) = true) by (vm_compute; reflexivity).
  rewrite forallb_forall in Hall.
  specialize (Hall n (upto_complete 10000 n ltac:(lia))).
  apply orb_prop in Hall. destruct Hall as [Hlt | Heq].
  - apply Z.ltb_lt in Hlt. lia.
  - now apply String.eqb_eq.
Qed.

Lemma append_inj_tail (s1 s2 t1 t2 : string) :
  String.length t1 = String.length t2 ->
  s1 ++ t1 = s2 ++ t2 -> s1 = s2 /\ t1 = t2.
Proof.
  intros Hlen H. apply append_inj; [|exact H].
  apply (f_equal String.length) in H. rewrite !length_append in H. lia.
Qed.

Lemma strftime_digits (t : datetime) :
  datetime_ok t = true ->
  strftime t
  = str_int (year (on_date t)) ++ "-" ++
    digits_of 2 (month (on_date t)) ++ "-" ++
    digits_of 2 (day (on_date t)) ++ " " ++
    digits_of 2 (hour t) ++ ":" ++ digits_of 2 (minute t) ++ ":" ++
    digits_of 2 (second t).
Proof.
  intro H. apply datetime_ok_bounds in H. destruct H as (Hd & Hh & Hm & Hs).
  apply date_ok_bounds in Hd.
  change (10 ^ Z.of_nat 2) with 100 in *.
  unfold strftime.
  now rewrite !fmt0_2_digits by lia.
Qed.

Ltac split_digits H :=
  apply append_inj in H; [|now rewrite !digits_of_length];
  let E := fresh "E" in
  destruct H as [E H]; apply digits_of_inj in E; [|assumption..];
  cbn [append] in H; apply string_tail_inj in H.

(** Two readings that print alike fall in the same second: what follows
    the year has one length, so the years are printed alike too. *)
Lemma strftime_inj (a b : datetime) :
  datetime_ok a = true -> datetime_ok b = true ->
  strftime a = strftime b -> same_second a b.
Proof.
  intros Ha Hb H. rewrite !strftime_digits in H by assumption.
  apply datetime_ok_bounds in Ha, Hb.
  destruct Ha as (Hda & Hh & Hm & Hs), Hb as (Hdb & Hh' & Hm' & Hs').
  apply date_ok_bounds in Hda, Hdb.
  destruct Hda as (? & ? & ?), Hdb as (? & ? & ?).
  apply append_inj_tail in H;
    [|now rewrite !length_append, !digits_of_length].
  destruct H as [Hy H]. apply str_int_inj in Hy.
  cbn [append] in H. apply string_tail_inj in H.
  do 4 split_digits H.
  apply digits_of_inj in H; [|assumption..].
  unfold same_second.
  destruct a as [[ya ma da] ha mia sa ua], b as [[yb mb db] hb mib sb ub].
  simpl in *. subst. repeat split.
Qed.

Lemma strftime_same_second (a b : datetime) :
  same_second a b -> strftime a = strftime b.
Proof.
  intros (Hd & Hh & Hm & Hs). unfold strftime. now rewrite Hd, Hh, Hm, Hs.
Qed.

(* ================================================================= *)
(** ** The two timestamps of a movement *)

(** C3 does not hold as the specification words it: with the clock at
    09:30:59.999998 for the first reading and at 09:31:00.000002 for the
    second, the submission succeeds and the row that is inserted has
    [time_in] 09:30:59 and [time_out] 09:31:00. *)
Lemma timestamps_differ_across_a_second :
  snd (record_movement "C100" "Shop A" "Shop B" "Wheel check" turning_world)
  = Success "✅ Movement updated for Coach C100" /\
  map (fun m => (Movement.time_in m, Movement.time_out m))
    (get_movements_for "C100" (database
       (fst (record_movement "C100" "Shop A" "Shop B" "Wheel check"
               turning_world))))
  = [("2025-01-10 09:30:59", "2025-01-10 09:31:00")] /\
  ~ (forall m,
       In m (get_movements_for "C100" (database
         (fst (record_movement "C100" "Shop A" "Shop B" "Wheel check"
                 turning_world)))) ->
       Movement.time_in m = Movement.time_out m).
Proof.
  split; [reflexivity|]. split; [reflexivity|].
  intro H. specialize (H _ (or_introl eq_refl)). discriminate H.
Qed.

(** C3, amended: on a submission with both shops filled in the clock is
    read twice; the row that is inserted has the first reading, printed to
    the second, as [time_in] and the second reading, printed to the second,
    as [time_out].  For readings that are valid datetimes the two texts are
    equal exactly when both readings fall in the same calendar second. *)
Theorem record_movement_timestamps
  (coach_no shop_out shop_in work_done : string) (w : world) :
  shop_in <> "" -> shop_out <> "" ->
  let t1 := clock w (reads w) in
  let t2 := clock w (S (reads w)) in
  exists m : Movement.row,
    rows (movements (database
      (fst (record_movement coach_no shop_out shop_in work_done w))))
    = (rows (movements (database w)) ++ [m])%list /\
    Movement.time_in m = strftime t1 /\
    Movement.time_out m = strftime t2 /\
    (same_second t1 t2 -> Movement.time_in m = Movement.time_out m) /\
    (datetime_ok t1 = true -> datetime_ok t2 = true ->
     Movement.time_in m = Movement.time_out m -> same_second t1 t2).
Proof.
  intros Hin Hout t1 t2.
  rewrite (record_movement_accepted _ _ _ _ w Hin Hout). simpl.
  eexists. split; [reflexivity|]. simpl.
  split; [reflexivity|]. split; [reflexivity|]. split.
  - apply strftime_same_second.
  - apply strftime_inj.
Qed.

Lemma record_movement_timestamps_witness :
  exists m : Movement.row,
    rows (movements (database
      (fst (record_movement "C100" "Shop A" "Shop B" "Wheel check"
              sample_world))))
    = (rows (movements sample_db) ++ [m])%list /\
    Movement.time_in m = "2025-01-10 09:30:15" /\
    Movement.time_out m = "2025-01-10 09:30:15".
Proof.
  destruct (record_movement_timestamps
              "C100" "Shop A" "Shop B" "Wheel check" sample_world)
    as (m & Hrows & Hin & Hout & _); [discriminate | discriminate |].
  exists m. split; [exact Hrows|]. split; [exact Hin | exact Hout].
Defined.

(* ================================================================= *)
(** ** Reports: the filter *)

Lemma filter_coaches_all (start_date end_date : date) (d : db) :
  filter_coaches start_date end_date "All" d
  = Some (filter (in_report (isoformat start_date) (isoformat end_date) "All")
            (list_coaches d)).
Proof.
  unfold filter_coaches, execute, list_coaches. simpl.
  f_equal. rewrite select_all. unfold select.
  apply filter_ext. intro r. unfold in_report. simpl.
  now rewrite andb_true_r.
Qed.

Lemma filter_coaches_typed (start_date end_date : date) (t : string)
  (d : db) :
  t <> "All" ->
  filter_coaches start_date end_date t d
  = Some (filter (in_report (isoformat start_date) (isoformat end_date) t)
            (list_coaches d)).
Proof.
  intro Ht. apply String.eqb_neq in Ht.
  unfold filter_coaches, execute, list_coaches. rewrite Ht. simpl.
  f_equal. rewrite select_all. unfold select.
  apply filter_ext. intro r. unfold in_report. simpl.
  now rewrite Ht, andb_true_r.
Qed.

(** The query that is put together always has as many parameters as it
    has question marks, and selects the rows [in_report] describes. *)
Lemma filter_coaches_in_report (start_date end_date : date) (t : string)
  (d : db) :
  filter_coaches start_date end_date t d
  = Some (filter (in_report (isoformat start_date) (isoformat end_date) t)
            (list_coaches d)).
Proof.
  destruct (String.eqb_spec t "All") as [-> | Hne].
  - apply filter_coaches_all.
  - now apply filter_coaches_typed.
Qed.

(** C6: for valid dates [start_date] and [end_date] and any type filter,
    [filter_coaches] returns rows of the coaches table, in table order, and
    a coach whose [date_in] is the ISO text of a date [on] is among them
    exactly when it is in the table, [start_date <= on <= end_date], and,
    unless the filter is ["All"], its type is the filter. *)
Theorem filter_coaches_range_and_type
  (start_date end_date : date) (coach_type_filter : string) (d : db) :
  date_ok start_date = true -> date_ok end_date = true ->
  exists result : list Coach.row,
    filter_coaches start_date end_date coach_type_filter d = Some result /\
    result
    = filter (in_report (isoformat start_date) (isoformat end_date)
                coach_type_filter)
        (list_coaches d) /\
    forall (r : Coach.row) (on : date),
      date_ok on = true -> Coach.date_in r = isoformat on ->
      (In r result <->
       In r (list_coaches d) /\
       date_leb start_date on = true /\ date_leb on end_date = true /\
       (coach_type_filter <> "All" ->
        Coach.coach_type r = coach_type_filter)).
Proof.
  intros Hs He. eexists. split; [apply filter_coaches_in_report|].
  split; [reflexivity|].
  intros r on Hon Hr. rewrite filter_In. unfold in_report.
  rewrite Hr, !isoformat_leb by assumption.
  rewrite !andb_true_iff, orb_true_iff, !String.eqb_eq.
  split.
  - intros (Hin & (Hlo & Hhi) & Ht). repeat split; try assumption.
    intro Hne. destruct Ht as [Ht | Ht]; [contradiction | exact Ht].
  - intros (Hin & Hlo & Hhi & Ht). repeat split; try assumption.
    destruct (String.eqb_spec coach_type_filter "All") as [Heq | Hne];
      [left; exact Heq | right; exact (Ht Hne)].
Qed.

Lemma filter_coaches_range_and_type_witness :
  filter_coaches (Date 2025 1 1) (Date 2025 12 31) "Sleeper" sample_db
  = Some [Coach.Row 2 "C100" "Sleeper" "2025-02-01" "Shop D"] /\
  exists result : list Coach.row,
    filter_coaches (Date 2025 1 1) (Date 2025 12 31) "Sleeper" sample_db
      = Some result /\
    forall (r : Coach.row) (on : date),
      date_ok on = true -> Coach.date_in r = isoformat on ->
      (In r result <->
       In r (list_coaches sample_db) /\
       date_leb (Date 2025 1 1) on = true /\
       date_leb on (Date 2025 12 31) = true /\
       ("Sleeper" <> "All" -> Coach.coach_type r = "Sleeper")).
Proof.
  split; [reflexivity|].
  destruct (filter_coaches_range_and_type
              (Date 2025 1 1) (Date 2025 12 31) "Sleeper" sample_db)
    as (result & Hres & _ & Hiff); [reflexivity | reflexivity |].
  exists result. split; [exact Hres | exact Hiff].
Defined.

(** The Reports tab never fails on its query, and offers the downloads
    exactly when the filters match a coach. *)
Lemma reports_tab_downloads (o : runtime) (s e : date) (t : string)
  (d : db) :
  exists rep, reports_tab o s e t d = Some rep /\
    match rep with
    | NoReport _ => filter_coaches s e t d = Some []
    | Report data csv _ =>
        filter_coaches s e t d = Some data /\ data <> [] /\
        csv = export_csv o data
    end.
Proof.
  unfold reports_tab. rewrite filter_coaches_in_report.
  destruct (filter _ _) as [|r l]; simpl; eexists; split; try reflexivity.
  repeat split. discriminate.
Qed.

(* ================================================================= *)
(** ** Export: writing the CSV and reading it back *)

Lemma append_assoc (a b c : string) : (a ++ b) ++ c = a ++ (b ++ c).
Proof. induction a as [|x a IH]; simpl; [reflexivity | now rewrite IH]. Qed.

Lemma append_empty_r (a : string) : a ++ "" = a.
Proof. induction a as [|x a IH]; simpl; [reflexivity | now rewrite IH]. Qed.

Lemma feed_app (r : reader) (s t : string) :
  feed r (s ++ t) = feed (feed r s) t.
Proof.
  revert r. induction s as [|c s IH]; intro r; simpl;
    [reflexivity | apply IH].
Qed.

Lemma special_false (c : ascii) :
  special c = false ->
  (c =? delimiter)%char = false /\ (c =? quotechar)%char = false /\
  (c =? CR)%char = false /\ (c =? LF)%char = false.
Proof.
  unfold special. intro H.
  repeat (apply orb_false_elim in H; destruct H as [H ?]). auto.
Qed.

(** A text without special characters is taken over as it stands. *)
Lemma feed_plain (s f : string) (fs : list string)
  (out : list (list string)) :
  needs_quotes s = false ->
  feed (Reader InField f fs out) s = Reader InField (f ++ s) fs out.
Proof.
  revert f. induction s as [|c s IH]; intros f H; simpl in *.
  - now rewrite append_empty_r.
  - apply orb_false_elim in H. destruct H as [Hc Hs].
    apply special_false in Hc. destruct Hc as (Hd & Hq & Hcr & Hlf).
    unfold step. simpl. rewrite Hlf, Hcr, Hd. unfold add_char. simpl.
    rewrite IH by assumption. now rewrite append_assoc.
Qed.

(** Inside quotes the doubled quote is read as one, all else as it is. *)
Lemma feed_escape (s f : string) (fs : list string)
  (out : list (list string)) :
  feed (Reader InQuoted f fs out) (escape s)
  = Reader InQuoted (f ++ s) fs out.
Proof.
  revert f. induction s as [|c s IH]; intro f; simpl.
  - now rewrite append_empty_r.
  - destruct (Ascii.eqb_spec c quotechar) as [-> | Hne].
    + simpl. unfold step at 2. simpl. unfold step at 1. simpl.
      unfold add_char. simpl. rewrite IH. now rewrite append_assoc.
    + simpl. unfold step. simpl.
      apply Ascii.eqb_neq in Hne. rewrite Hne.
      unfold add_char. simpl. rewrite IH. now rewrite append_assoc.
Qed.

Lemma feed_quoted (s f : string) (fs : list string)
  (out : list (list string)) :
  feed (Reader StartField f fs out) (quoted s)
  = Reader QuoteInQuoted (f ++ s) fs out.
Proof.
  unfold quoted. simpl. unfold step at 1. simpl. unfold start_field. simpl.
  rewrite feed_app, feed_escape. reflexivity.
Qed.

(** After a written field the reader holds that field, in a state that
    closes it at the next delimiter or line end. *)
Lemma feed_write_field (s : string) (fs : list string)
  (out : list (list string)) :
  exists st, closing st /\
    feed (Reader StartField "" fs out) (write_field s) = Reader st s fs out.
Proof.
  unfold write_field. destruct (needs_quotes s) eqn:Hq.
  - exists QuoteInQuoted. split; [unfold closing; auto|]. apply feed_quoted.
  - destruct s as [|c s].
    + exists StartField. split; [unfold closing; auto | reflexivity].
    + exists InField. split; [unfold closing; auto|].
      simpl in Hq. apply orb_false_elim in Hq. destruct Hq as [Hc Hs].
      apply special_false in Hc. destruct Hc as (Hd & Hqc & Hcr & Hlf).
      simpl. unfold step at 1. simpl. unfold start_field.
      rewrite Hlf, Hcr, Hqc, Hd. unfold add_char. simpl.
      now rewrite feed_plain.
Qed.

Lemma step_delimiter (st : reader_state) (f : string) (fs : list string)
  (out : list (list string)) :
  closing st ->
  step (Reader st f fs out) delimiter
  = Reader StartField "" (fs ++ [f])%list out.
Proof. intros [-> | [-> | ->]]; reflexivity. Qed.

Lemma feed_linesep (o : os) (st : reader_state) (f : string)
  (fs : list string) (out : list (list string)) :
  closing st ->
  feed (Reader st f fs out) (linesep o)
  = Reader StartRecord "" [] (out ++ [(fs ++ [f])%list])%list.
Proof. intros [-> | [-> | ->]]; destruct o; reflexivity. Qed.

Lemma concat_cons2 (sep x y : string) (l : list string) :
  String.concat sep (x :: y :: l) = x ++ sep ++ String.concat sep (y :: l).
Proof. reflexivity. Qed.

Lemma feed_fields (o : os) (l : list string) (x : string)
  (fs : list string) (out : list (list string)) :
  feed (Reader StartField "" fs out)
    (String.concat (String delimiter "") (map write_field (x :: l))
     ++ linesep o)
  = Reader StartRecord "" [] (out ++ [(fs ++ x :: l)%list])%list.
Proof.
  revert x fs. induction l as [|y l IH]; intros x fs.
  - simpl map. simpl String.concat. rewrite feed_app.
    destruct (feed_write_field x fs out) as (st & Hst & ->).
    now apply feed_linesep.
  - change (map write_field (x :: y :: l))
      with (write_field x :: write_field y :: map write_field l).
    rewrite concat_cons2, !append_assoc, feed_app.
    destruct (feed_write_field x fs out) as (st & Hst & ->).
    rewrite feed_app. cbn [feed]. rewrite step_delimiter by assumption.
    change (write_field y :: map write_field l)
      with (map write_field (y :: l)).
    rewrite IH. now rewrite <- app_assoc.
Qed.

Lemma feed_start_record (s f : string) (fs : list string)
  (out : list (list string)) :
  opens_record s ->
  feed (Reader StartRecord f fs out) s = feed (Reader StartField f fs out) s.
Proof.
  destruct s as [|c s]; simpl; [tauto|]. intros [Hlf Hcr].
  unfold step. simpl. now rewrite Hlf, Hcr.
Qed.

Lemma opens_record_app (s t : string) :
  opens_record s -> opens_record (s ++ t).
Proof. destruct s; simpl; tauto. Qed.

Lemma write_field_opens (x : string) :
  x <> "" -> opens_record (write_field x).
Proof.
  destruct x as [|c x]; [congruence|]. intros _.
  unfold write_field. destruct (needs_quotes (String c x)) eqn:Hq.
  - simpl. split; reflexivity.
  - simpl in *. apply orb_false_elim in Hq. destruct Hq as [Hc _].
    apply special_false in Hc. tauto.
Qed.

Lemma fields_open (x : string) (l : list string) :
  (x <> "" \/ l <> []) ->
  opens_record
    (String.concat (String delimiter "") (map write_field (x :: l))).
Proof.
  intros H. destruct l as [|y l].
  - destruct H as [H | H]; [|congruence]. simpl. now apply write_field_opens.
  - change (map write_field (x :: y :: l))
      with (write_field x :: write_field y :: map write_field l).
    rewrite concat_cons2.
    destruct x as [|c x].
    + simpl. split; reflexivity.
    + apply opens_record_app, write_field_opens. discriminate.
Qed.

(** One written record is read back as that record. *)
Lemma feed_writerow (o : os) (fs : list string) (out : list (list string)) :
  feed (Reader StartRecord "" [] out) (writerow_with write_field o fs)
  = Reader StartRecord "" [] (out ++ [fs])%list.
Proof.
  destruct fs as [|x l].
  - destruct o; reflexivity.
  - assert (Hgen :
      (x <> "" \/ l <> []) ->
      feed (Reader StartRecord "" [] out)
        (String.concat (String delimiter "") (map write_field (x :: l))
         ++ linesep o)
      = Reader StartRecord "" [] (out ++ [x :: l])%list).
    { intro H. rewrite feed_start_record
        by (apply opens_record_app, fields_open, H).
      apply (feed_fields o l x [] out). }
    destruct x as [|c x].
    + destruct l as [|y l].
      * destruct o; reflexivity.
      * apply Hgen. right. discriminate.
    + apply Hgen. left. discriminate.
Qed.

Lemma feed_writerows (o : os) (rs : list (list string))
  (out : list (list string)) :
  feed (Reader StartRecord "" [] out) (writerows_with write_field o rs)
  = Reader StartRecord "" [] (out ++ rs)%list.
Proof.
  revert out. induction rs as [|r rs IH]; intro out; simpl.
  - now rewrite app_nil_r.
  - rewrite feed_app, feed_writerow, IH. now rewrite <- app_assoc.
Qed.

(** Whatever records are written with every line break quoted, on either
    line terminator, the reader returns them: the same fields, in the same
    order. *)
Lemma read_csv_writerows (o : os) (rs : list (list string)) :
  read_csv (writerows_with write_field o rs) = rs.
Proof. unfold read_csv. now rewrite feed_writerows. Qed.

Lemma legacy_special_same (o : os) (c : ascii) :
  o = nt \/ (CR =? c)%char = false -> legacy_special o c = special c.
Proof.
  intro H. unfold legacy_special, special.
  destruct o; cbn [linesep occurs].
  - destruct H as [H | H]; [discriminate|].
    rewrite Ascii.eqb_sym in H. rewrite H.
    now rewrite !orb_false_r.
  - now rewrite orb_false_r, !orb_assoc.
Qed.

Lemma legacy_needs_quotes_same (o : os) (s : string) :
  o = nt \/ occurs CR s = false ->
  legacy_needs_quotes o s = needs_quotes s.
Proof.
  intro H. induction s as [|c s IH]; cbn [legacy_needs_quotes needs_quotes];
    [reflexivity|].
  cbn [occurs] in H.
  rewrite IH, legacy_special_same; [reflexivity| |].
  - destruct H as [H | H]; [now left | right].
    now apply orb_false_elim in H.
  - destruct H as [H | H]; [now left | right].
    now apply orb_false_elim in H.
Qed.

(** The older writer writes a field as the writer above does, unless the
    line terminator is a bare line feed and the field holds a carriage
    return. *)
Lemma legacy_write_field_same (o : os) (s : string) :
  o = nt \/ occurs CR s = false ->
  legacy_write_field o s = write_field s.
Proof.
  intro H. unfold legacy_write_field, write_field.
  now rewrite legacy_needs_quotes_same.
Qed.

Lemma coach_of_record_tuple (r : Coach.row) :
  coach_of_record (map cell_text (coach_tuple r)) = Some r.
Proof.
  destruct r as [i n t d s]. unfold coach_of_record. simpl.
  now rewrite int_str_str_int.
Qed.

Lemma coaches_of_records_tuples (data : list Coach.row) :
  coaches_of_records (map (fun r => map cell_text (coach_tuple r)) data)
  = Some data.
Proof.
  induction data as [|r data IH]; [reflexivity|].
  cbn [map coaches_of_records]. now rewrite coach_of_record_tuple, IH.
Qed.

Lemma to_csv_writerows (rt : runtime) (df : DataFrame) :
  to_csv rt df
  = writerows rt (columns df :: map (map cell_text) (records df)).
Proof. reflexivity. Qed.

(** The writer of the runtime writes a field as the writer that quotes
    every line break does, unless it is the older writer with the bare line
    feed as terminator and the field holds a carriage return. *)
Lemma write_field_on_same (rt : runtime) (s : string) :
  quotes_carriage_return rt = true \/ occurs CR s = false ->
  write_field_on rt s = write_field s.
Proof.
  destruct rt as [o q]. unfold write_field_on, quotes_carriage_return.
  simpl. destruct q; [|reflexivity]. intro H.
  apply legacy_write_field_same.
  destruct o; [right | now left].
  destruct H as [H | H]; [discriminate | exact H].
Qed.

Lemma writerow_with_ext (wf wf' : string -> string) (o : os)
  (fields : list string) :
  (forall s, In s fields -> wf s = wf' s) ->
  writerow_with wf o fields = writerow_with wf' o fields.
Proof.
  intro H. unfold writerow_with.
  now rewrite (map_ext_in wf wf' fields H).
Qed.

Lemma writerows_with_ext (wf wf' : string -> string) (o : os)
  (rs : list (list string)) :
  (forall fields s, In fields rs -> In s fields -> wf s = wf' s) ->
  writerows_with wf o rs = writerows_with wf' o rs.
Proof.
  induction rs as [|r rs IH]; intro H; simpl; [reflexivity|].
  rewrite (writerow_with_ext wf wf' o r), IH; [reflexivity | |].
  - intros fields s Hf Hs. apply (H fields s); [now right | exact Hs].
  - intros s Hs. apply (H r s); [now left | exact Hs].
Qed.

(** An id in decimal holds no carriage return. *)
Lemma occurs_cr_uint (d : Decimal.uint) :
  occurs CR (NilEmpty.string_of_uint d) = false.
Proof. induction d; simpl; assumption || reflexivity. Qed.

Lemma occurs_cr_str_int (n : Z) : occurs CR (str_int n) = false.
Proof.
  unfold str_int. destruct (Z.to_int n) as [d | d]; simpl.
  - destruct d; simpl; try apply occurs_cr_uint; reflexivity.
  - destruct d; simpl; try apply occurs_cr_uint; reflexivity.
Qed.

Lemma cr_free_cells (r : Coach.row) (s : string) :
  cr_free r = true -> In s (map cell_text (coach_tuple r)) ->
  occurs CR s = false.
Proof.
  unfold cr_free. rewrite !andb_true_iff, !negb_true_iff.
  intros (((H1 & H2) & H3) & H4). simpl.
  intros [<- | [<- | [<- | [<- | [<- | []]]]]]; try assumption.
  apply occurs_cr_str_int.
Qed.

(** On a runtime that quotes the carriage return, or for coaches without
    one, the export is the text the writer that quotes every line break
    writes. *)
Lemma export_csv_text (rt : runtime) (data : list Coach.row) :
  quotes_carriage_return rt = true \/ forallb cr_free data = true ->
  decode_utf8 (export_csv rt data)
  = writerows_with write_field (platform rt)
      (coach_columns :: map (fun r => map cell_text (coach_tuple r)) data).
Proof.
  intro H. unfold export_csv, decode_utf8, encode_utf8.
  rewrite string_of_list_byte_of_string, to_csv_writerows.
  unfold coach_frame. simpl columns. simpl records. rewrite map_map.
  unfold writerows. apply writerows_with_ext.
  intros fields s Hf Hs. apply write_field_on_same.
  destruct H as [H | H]; [now left | right].
  destruct Hf as [<- | Hf].
  - simpl in Hs.
    destruct Hs as [<- | [<- | [<- | [<- | [<- | []]]]]]; reflexivity.
  - apply in_map_iff in Hf. destruct Hf as (r & <- & Hr).
    rewrite forallb_forall in H. exact (cr_free_cells r s (H r Hr) Hs).
Qed.




(* ================================================================= *)
(** ** GROUP BY: the counts of the dashboard *)

Lemma ascii_compare_lt_trans (a b c : ascii) :
  Ascii.compare a b = Lt -> Ascii.compare b c = Lt -> Ascii.compare a c = Lt.
Proof.
  unfold Ascii.compare. rewrite !N.compare_lt_iff. apply N.lt_trans.
Qed.

Lemma compare_lt_trans (s t u : string) :
  String.compare s t = Lt -> String.compare t u = Lt ->
  String.compare s u = Lt.
Proof.
  revert t u. induction s as [|a s IH]; intros [|b t] [|c u]; simpl;
    try congruence.
  destruct (Ascii.compare a b) eqn:Hab; try discriminate;
    destruct (Ascii.compare b c) eqn:Hbc; try discriminate; intros H1 H2.
  - apply Ascii.compare_eq_iff in Hab, Hbc. subst.
    rewrite ascii_compare_refl. now apply (IH t u).
  - apply Ascii.compare_eq_iff in Hab. subst. now rewrite Hbc.
  - apply Ascii.compare_eq_iff in Hbc. subst. now rewrite Hab.
  - now rewrite (ascii_compare_lt_trans a b c).
Qed.

Lemma compare_gt_lt (s t : string) :
  String.compare s t = Gt -> String.compare t s = Lt.
Proof. intro H. rewrite String.compare_antisym, H. reflexivity. Qed.

Lemma compare_lt_neq (s t : string) : String.compare s t = Lt -> s <> t.
Proof. intros H ->. rewrite compare_refl in H. discriminate. Qed.

Lemma tally_keys (k x : string) (groups : list (string * nat)) :
  In x (map fst (tally k groups)) -> x = k \/ In x (map fst groups).
Proof.
  induction groups as [|[k' n] rest IH]; simpl.
  - intros [<- | []]. now left.
  - destruct (String.compare k k') eqn:Hc; simpl.
    + tauto.
    + intros [<- | H]; tauto.
    + intros [<- | H]; [tauto|]. destruct (IH H); tauto.
Qed.

Lemma tally_ascending (k : string) (groups : list (string * nat)) :
  ascending groups -> ascending (tally k groups).
Proof.
  unfold ascending.
  induction groups as [|[k' n] rest IH]; simpl; intro Hs.
  - repeat constructor.
  - inversion Hs as [|? ? Hrest Hall]; subst.
    destruct (String.compare k k') eqn:Hc; simpl.
    + now constructor.
    + constructor; [exact Hs|]. constructor; [exact Hc|].
      eapply Forall_impl; [|exact Hall].
      intros x Hx. simpl in Hx. now apply (compare_lt_trans k k' x).
    + constructor; [now apply IH|].
      apply Forall_forall. intros x Hx. apply tally_keys in Hx.
      destruct Hx as [-> | Hx]; [now apply compare_gt_lt|].
      rewrite Forall_forall in Hall. now apply Hall.
Qed.

Lemma group_count_ascending (keys : list string) :
  ascending (group_count keys).
Proof.
  induction keys as [|k keys IH]; simpl; [constructor|].
  now apply tally_ascending.
Qed.

Lemma count_for_absent (k : string) (groups : list (string * nat)) :
  ~ In k (map fst groups) -> count_for k groups = 0%nat.
Proof.
  induction groups as [|[k' n] rest IH]; simpl; intro H; [reflexivity|].
  destruct (String.eqb_spec k' k) as [-> | Hne]; [tauto|].
  apply IH. tauto.
Qed.

Lemma ascending_head_absent (k k' : string) (n : nat)
  (rest : list (string * nat)) :
  ascending ((k', n) :: rest) -> String.compare k k' = Lt ->
  ~ In k (map fst ((k', n) :: rest)).
Proof.
  unfold ascending. simpl. intros Hs Hlt [-> | Hin].
  - rewrite compare_refl in Hlt. discriminate.
  - inversion Hs as [|? ? _ Hall]; subst. rewrite Forall_forall in Hall.
    specialize (Hall k Hin). simpl in Hall.
    pose proof (compare_lt_trans k k' k Hlt Hall) as H.
    rewrite compare_refl in H. discriminate.
Qed.

Lemma count_for_tally (k x : string) (groups : list (string * nat)) :
  ascending groups ->
  count_for x (tally k groups)
  = ((if (k =? x)%string then 1 else 0) + count_for x groups)%nat.
Proof.
  induction groups as [|[k' n] rest IH]; intro Hs.
  - simpl. destruct (k =? x)%string; reflexivity.
  - cbn [tally]. destruct (String.compare k k') eqn:Hc.
    + apply String.compare_eq_iff in Hc. subst k'. simpl.
      destruct (k =? x)%string; reflexivity.
    + destruct (String.eqb_spec k x) as [-> | Hne].
      * rewrite (count_for_absent x ((k', n) :: rest))
          by now apply ascending_head_absent.
        cbn [count_for]. now rewrite String.eqb_refl.
      * cbn [count_for]. apply String.eqb_neq in Hne. now rewrite Hne.
    + cbn [count_for]. destruct (String.eqb_spec k' x) as [-> | Hne].
      * destruct (String.eqb_spec k x) as [-> | _]; [|reflexivity].
        rewrite compare_refl in Hc. discriminate.
      * apply IH. unfold ascending in *. simpl in Hs.
        now inversion Hs.
Qed.

Lemma count_for_group_count (x : string) (keys : list string) :
  count_for x (group_count keys) = count_occ string_dec keys x.
Proof.
  induction keys as [|k keys IH]; simpl; [reflexivity|].
  rewrite count_for_tally by apply group_count_ascending.
  rewrite IH. destruct (string_dec k x) as [-> | Hne].
  - now rewrite String.eqb_refl.
  - apply String.eqb_neq in Hne. now rewrite Hne.
Qed.

Lemma count_for_member (k : string) (n : nat)
  (groups : list (string * nat)) :
  ascending groups -> In (k, n) groups -> count_for k groups = n.
Proof.
  unfold ascending.
  induction groups as [|[k' n'] rest IH]; simpl; intros Hs Hin; [tauto|].
  inversion Hs as [|? ? Hrest Hall]; subst.
  destruct Hin as [[= -> ->] | Hin].
  - now rewrite String.eqb_refl.
  - destruct (String.eqb_spec k' k) as [-> | Hne]; [|now apply IH].
    rewrite Forall_forall in Hall.
    assert (Hk : In k (map fst rest))
      by (apply in_map_iff; exists (k, n); auto).
    specialize (Hall k Hk). simpl in Hall.
    rewrite compare_refl in Hall. discriminate.
Qed.

Lemma count_for_positive (k : string) (groups : list (string * nat)) :
  (0 < count_for k groups)%nat -> In (k, count_for k groups) groups.
Proof.
  induction groups as [|[k' n] rest IH]; simpl; intro H; [lia|].
  destruct (String.eqb_spec k' k) as [-> | Hne]; [now left|].
  right. now apply IH.
Qed.

Lemma tally_positive (k : string) (groups : list (string * nat)) :
  Forall (fun p => (0 < snd p)%nat) groups ->
  Forall (fun p => (0 < snd p)%nat) (tally k groups).
Proof.
  induction groups as [|[k' n] rest IH]; simpl; intro H.
  - repeat constructor.
  - inversion H as [|? ? Hn Hrest]; subst.
    destruct (String.compare k k'); constructor; simpl in *;
      auto; try lia.
Qed.

Lemma group_count_positive (keys : list string) :
  Forall (fun p => (0 < snd p)%nat) (group_count keys).
Proof.
  induction keys as [|k keys IH]; simpl; [constructor|].
  now apply tally_positive.
Qed.

Lemma sum_counts_tally (k : string) (groups : list (string * nat)) :
  sum_counts (tally k groups) = S (sum_counts groups).
Proof.
  induction groups as [|[k' n] rest IH]; simpl; [reflexivity|].
  destruct (String.compare k k'); simpl; [lia | lia |].
  unfold sum_counts in *. simpl. rewrite IH. lia.
Qed.

Lemma sum_counts_group_count (keys : list string) :
  sum_counts (group_count keys) = List.length keys.
Proof.
  induction keys as [|k keys IH]; simpl; [reflexivity|].
  now rewrite sum_counts_tally, IH.
Qed.

Lemma ascending_nodup (groups : list (string * nat)) :
  ascending groups -> NoDup (map fst groups).
Proof.
  unfold ascending. induction (map fst groups) as [|k l IH]; intro Hs.
  - constructor.
  - inversion Hs as [|? ? Hrest Hall]; subst. constructor; [|now apply IH].
    intro Hin. rewrite Forall_forall in Hall. specialize (Hall k Hin).
    simpl in Hall. rewrite compare_refl in Hall. discriminate.
Qed.

Lemma count_occ_filter {A : Type} (f : A -> string) (l : list A)
  (k : string) :
  count_occ string_dec (map f l) k
  = List.length (filter (fun a => (f a =? k)%string) l).
Proof.
  induction l as [|a l IH]; simpl; [reflexivity|].
  destruct (string_dec (f a) k) as [-> | Hne].
  - rewrite String.eqb_refl. simpl. now rewrite IH.
  - apply String.eqb_neq in Hne. now rewrite Hne.
Qed.

(** X1: the chart "Coaches by Type" is drawn exactly when there is a coach;
    it then lists every type that occurs once, with the number of coaches
    of that type, lists no other type, and its counts add up to the
    "Total Coaches" figure of the same page. *)
Theorem coaches_by_type_counts (d : db) :
  match coaches_by_type (dashboard_tab d) with
  | None => list_coaches d = []
  | Some chart =>
      list_coaches d <> [] /\
      NoDup (map fst chart) /\
      (forall t n,
         In (t, n) chart <->
         (0 < n)%nat /\
         n = List.length
               (filter (fun r => (Coach.coach_type r =? t)%string)
                  (list_coaches d))) /\
      sum_counts chart = total_coaches (dashboard_tab d)
  end.
Proof.
  unfold dashboard_tab, list_coaches. simpl. rewrite !select_all.
  set (keys := map Coach.coach_type (rows (coaches d))).
  assert (Hasc : ascending (group_count keys)) by apply group_count_ascending.
  assert (Hsum : sum_counts (group_count keys)
                 = List.length (rows (coaches d))).
  { rewrite sum_counts_group_count. apply length_map. }
  assert (Hiff : forall t n,
    In (t, n) (group_count keys) <->
    (0 < n)%nat /\
    n = List.length
          (filter (fun r => (Coach.coach_type r =? t)%string)
             (rows (coaches d)))).
  { intros t n. rewrite <- count_occ_filter. fold keys.
    rewrite <- count_for_group_count. split.
    - intro Hin. split.
      + pose proof (group_count_positive keys) as Hpos.
        rewrite Forall_forall in Hpos. exact (Hpos _ Hin).
      + symmetry. now apply count_for_member.
    - intros [Hpos ->]. now apply count_for_positive. }
  destruct (group_count keys) as [|g gs] eqn:Hg; simpl.
  - destruct (rows (coaches d)); [reflexivity | discriminate].
  - split; [|split; [|split]].
    + intro Hnil. unfold keys in Hg. rewrite Hnil in Hg. discriminate.
    + now apply (ascending_nodup (g :: gs)).
    + exact Hiff.
    + exact Hsum.
Qed.

(** X2: the chart "Movements per Coach" is drawn exactly when there is a
    movement; it then lists every coach number that has a movement once,
    with the number of rows [get_movements_for] returns for it, and its
    counts add up to the "Total Movements" figure. *)
Theorem movements_per_coach_counts (d : db) :
  match movements_per_coach (dashboard_tab d) with
  | None => rows (movements d) = []
  | Some chart =>
      rows (movements d) <> [] /\
      NoDup (map fst chart) /\
      (forall c n,
         In (c, n) chart <->
         (0 < n)%nat /\ n = List.length (get_movements_for c d)) /\
      sum_counts chart = total_movements (dashboard_tab d)
  end.
Proof.
  unfold dashboard_tab, get_movements_for. simpl. rewrite !select_all.
  set (keys := map Movement.coach_no (rows (movements d))).
  assert (Hasc : ascending (group_count keys)) by apply group_count_ascending.
  assert (Hsum : sum_counts (group_count keys)
                 = List.length (rows (movements d))).
  { rewrite sum_counts_group_count. apply length_map. }
  assert (Hiff : forall c n,
    In (c, n) (group_count keys) <->
    (0 < n)%nat /\
    n = List.length
          (select (fun m => (Movement.coach_no m =? c)%string)
             (movements d))).
  { intros c n. unfold select. rewrite <- count_occ_filter. fold keys.
    rewrite <- count_for_group_count. split.
    - intro Hin. split.
      + pose proof (group_count_positive keys) as Hpos.
        rewrite Forall_forall in Hpos. exact (Hpos _ Hin).
      + symmetry. now apply count_for_member.
    - intros [Hpos ->]. now apply count_for_positive. }
  destruct (group_count keys) as [|g gs] eqn:Hg; simpl.
  - destruct (rows (movements d)); [reflexivity | discriminate].
  - split; [|split; [|split]].
    + intro Hnil. unfold keys in Hg. rewrite Hnil in Hg. discriminate.
    + now apply (ascending_nodup (g :: gs)).
    + exact Hiff.
    + exact Hsum.
Qed.

(** X3: the "Active Shops" figure is the number of different values of
    [current_shop]: there is a duplicate-free list of that length that holds
    exactly the shops of the coaches.  It is 0 exactly when there is no
    coach and never above "Total Coaches". *)
Theorem active_shops_bounds (d : db) :
  (exists shops : list string,
     NoDup shops /\
     List.length shops = total_shops (dashboard_tab d) /\
     forall s, In s shops <->
               exists r, In r (list_coaches d) /\ Coach.current_shop r = s) /\
  (total_shops (dashboard_tab d) <= total_coaches (dashboard_tab d))%nat /\
  (total_shops (dashboard_tab d) = 0%nat <->
   total_coaches (dashboard_tab d) = 0%nat).
Proof.
  unfold dashboard_tab, list_coaches, count_distinct. simpl.
  rewrite !select_all.
  set (shops := map Coach.current_shop (rows (coaches d))).
  split; [|split].
  - exists (nodup string_dec shops). split; [apply NoDup_nodup|].
    split; [reflexivity|]. intro s. rewrite nodup_In. unfold shops.
    rewrite in_map_iff. split; intros (r & H1 & H2); exists r; tauto.
  - rewrite <- (length_map Coach.current_shop (rows (coaches d))).
    fold shops. apply NoDup_incl_length; [apply NoDup_nodup|].
    intros s Hs. now apply nodup_In in Hs.
  - rewrite <- (length_map Coach.current_shop (rows (coaches d))).
    fold shops. rewrite !length_zero_iff_nil. split.
    + intro H. destruct shops as [|s l]; [reflexivity|]. exfalso.
      assert (Hin : In s (nodup string_dec (s :: l)))
        by (apply nodup_In; now left).
      rewrite H in Hin. exact Hin.
    + intros ->. reflexivity.
Qed.

(* ================================================================= *)
(** ** The tabs, one run *)

Lemma with_database_same (w : world) : with_database (database w) w = w.
Proof. destruct w; reflexivity. Qed.

Lemma opened_saved (s : store) (d : db) : opened s = Some d -> saved d = s.
Proof.
  destruct s as [[c|] [m|]]; simpl; intros [= <-]; reflexivity.
Qed.

Lemma add_coach_tab_database (ui : widgets) (d : db) :
  fst (add_coach_tab ui d)
  = if add_accepted ui
    then Db (insert Coach.id
               (fun i => Coach.Row i (coach_number_input ui)
                           (coach_type_text (type_input ui))
                           (isoformat (date_in_input ui))
                           (initial_shop_input ui))
               (coaches d))
            (movements d)
    else d.
Proof.
  unfold add_coach_tab, add_accepted, add_coach.
  destruct (is_add_coach (clicked ui)); simpl; [|reflexivity].
  destruct (truthy (coach_number_input ui) && truthy (initial_shop_input ui));
    reflexivity.
Qed.

Lemma update_movement_tab_world (ui : widgets) (w : world) :
  fst (update_movement_tab (select_coach_input ui) (shop_out_input ui)
         (shop_in_input ui) (work_done_input ui)
         (is_update_movement (clicked ui)) w)
  = if move_accepted ui (database w)
    then fst (record_movement (chosen_coach ui (database w))
                (shop_out_input ui) (shop_in_input ui) (work_done_input ui)
                w)
    else w.
Proof.
  unfold update_movement_tab, move_accepted, chosen_coach.
  destruct (list_coach_numbers (database w)) as [|first rest] eqn:Hl.
  - now rewrite andb_false_r.
  - cbv zeta. change (hd "" (first :: rest)) with first.
    destruct (is_update_movement (clicked ui)); cbn [andb]; [|reflexivity].
    destruct (truthy (shop_in_input ui) && truthy (shop_out_input ui))
      eqn:Hok.
    + now destruct (record_movement _ _ _ _ w).
    + unfold record_movement. rewrite Hok. reflexivity.
Qed.

(** What a run leaves: the world after the Update Movement tab, with the
    clock read once more for the default of "End Date". *)
Lemma tabs_run (o : runtime) (ui : widgets) (w : world) :
  fst (tabs o ui w)
  = snd (now (fst (update_movement_tab (select_coach_input ui)
                     (shop_out_input ui) (shop_in_input ui)
                     (work_done_input ui)
                     (is_update_movement (clicked ui))
                     (with_database (fst (add_coach_tab ui (database w)))
                        w)))).
Proof.
  unfold tabs. destruct (add_coach_tab ui (database w)) as [d1 added].
  simpl. now destruct (update_movement_tab _ _ _ _ _ _).
Qed.

Lemma tabs_world (o : runtime) (ui : widgets) (w : world) :
  database (fst (tabs o ui w))
  = database
      (fst (update_movement_tab (select_coach_input ui) (shop_out_input ui)
              (shop_in_input ui) (work_done_input ui)
              (is_update_movement (clicked ui))
              (with_database (fst (add_coach_tab ui (database w))) w))).
Proof. now rewrite tabs_run. Qed.

Lemma tabs_page (o : runtime) (ui : widgets) (w : world) :
  dashboard_view (snd (tabs o ui w)) = dashboard_tab (database w) /\
  select_coach_options (snd (tabs o ui w))
  = list_coach_numbers (fst (add_coach_tab ui (database w))) /\
  exists today : datetime,
    reports_view (snd (tabs o ui w))
    = reports_tab o (date_input (start_date_input ui) (Date 2025 1 1))
        (date_input (end_date_input ui) (on_date today))
        (filter_text (filter_input ui)) (database (fst (tabs o ui w))).
Proof.
  unfold tabs. destruct (add_coach_tab ui (database w)) as [d1 added].
  simpl. destruct (update_movement_tab _ _ _ _ _ _) as [w2 moved].
  simpl. repeat split. now eexists.
Qed.

(** Only one button is clicked in a run. *)
Lemma one_click (ui : widgets) (d d' : db) :
  add_accepted ui = true -> move_accepted ui d = false.
Proof.
  unfold add_accepted, move_accepted. destruct (clicked ui); simpl;
    try discriminate. reflexivity.
Qed.

Lemma move_accepted_after_add (ui : widgets) (d : db) :
  move_accepted ui (fst (add_coach_tab ui d)) = move_accepted ui d.
Proof.
  rewrite add_coach_tab_database. destruct (add_accepted ui) eqn:Ha;
    [|reflexivity].
  unfold add_accepted in Ha. unfold move_accepted.
  destruct (clicked ui); simpl in *; try discriminate; reflexivity.
Qed.

(** X4: a run in which neither "Add Coach" nor "Update Movement" was
    clicked (a rerun after typing, choosing a filter, asking for details or
    downloading) writes nothing: both tables are as they were; on the
    file, the script then leaves what creating the schema leaves. *)
Theorem run_without_submit_changes_nothing
  (o : runtime) (ui : widgets) (w : world) (s : store)
  (clk : nat -> datetime) :
  clicked ui = NoButton \/ clicked ui = GetDetailsButton ->
  database (fst (tabs o ui w)) = database w /\
  exists p, script o ui s clk = Some (ensure_schema s, p).
Proof.
  intro Hc.
  assert (Hadd : add_accepted ui = false)
    by (unfold add_accepted; destruct Hc as [-> | ->]; reflexivity).
  assert (Hmove : forall d, move_accepted ui d = false)
    by (intro d; unfold move_accepted; destruct Hc as [-> | ->];
        reflexivity).
  assert (Hsame : forall w0, fst (tabs o ui w0) = snd (now w0)).
  { intro w0. rewrite tabs_run, update_movement_tab_world.
    rewrite Hmove, add_coach_tab_database, Hadd.
    now rewrite with_database_same. }
  split; [now rewrite Hsame|].
  unfold script. destruct (opened_ensure_schema s) as (d & Hd). rewrite Hd.
  specialize (Hsame (World d clk 0)).
  destruct (tabs o ui (World d clk 0)) as [w' p]. simpl in Hsame. subst w'.
  exists p. simpl. now rewrite (opened_saved _ _ Hd).
Qed.

(** X5: the figures a run shows are those of the store before its click is
    handled: the dashboard of the run after shows "Total Coaches" one
    higher exactly when "Add Coach" was clicked with both fields filled in,
    and "Total Movements" one higher exactly when "Update Movement" was
    clicked with a coach to select and both shops filled in; never both. *)
Theorem dashboard_is_one_run_behind (o : runtime) (ui : widgets) (w : world) :
  let shown := dashboard_view (snd (tabs o ui w)) in
  let next := dashboard_tab (database (fst (tabs o ui w))) in
  shown = dashboard_tab (database w) /\
  total_coaches next
  = (total_coaches shown + if add_accepted ui then 1 else 0)%nat /\
  total_movements next
  = (total_movements shown
     + if move_accepted ui (database w) then 1 else 0)%nat /\
  (add_accepted ui = true -> move_accepted ui (database w) = false).
Proof.
  intros shown next. subst shown next.
  destruct (tabs_page o ui w) as (-> & _ & _).
  split; [reflexivity|].
  rewrite tabs_world, update_movement_tab_world. simpl database.
  rewrite move_accepted_after_add.
  unfold dashboard_tab. simpl. rewrite !select_all.
  rewrite add_coach_tab_database.
  assert (Hone : add_accepted ui = true ->
                 move_accepted ui (database w) = false).
  { unfold add_accepted, move_accepted.
    destruct (clicked ui); simpl; try discriminate; reflexivity. }
  destruct (move_accepted ui (database w)) eqn:Hm.
  - destruct (add_accepted ui) eqn:Ha; [now discriminate Hone|].
    assert (Hok : truthy (shop_in_input ui) && truthy (shop_out_input ui)
                  = true).
    { unfold move_accepted in Hm. apply andb_prop in Hm. tauto. }
    unfold record_movement. rewrite Hok. simpl.
    rewrite length_map, length_app. simpl.
    repeat split; try lia; try discriminate.
  - destruct (add_accepted ui) eqn:Ha; simpl.
    + rewrite length_app. simpl. repeat split; try lia; try discriminate.
    + repeat split; try lia; try discriminate.
Qed.

(** X6: in the run in which a coach is added, the select box of the Update
    Movement tab already offers the new number: its options are the numbers
    offered before followed by the new one, also when that number is in the
    table already (there is no duplicate check); the dashboard of that run
    still shows the table without the new coach. *)
Theorem added_coach_is_offered_at_once (o : runtime) (ui : widgets) (w : world) :
  add_accepted ui = true ->
  select_coach_options (snd (tabs o ui w))
  = (list_coach_numbers (database w) ++ [coach_number_input ui])%list /\
  coaches_view (dashboard_view (snd (tabs o ui w)))
  = coaches_view (dashboard_tab (database w)) /\
  count_occ string_dec (select_coach_options (snd (tabs o ui w)))
    (coach_number_input ui)
  = S (count_occ string_dec (list_coach_numbers (database w))
         (coach_number_input ui)).
Proof.
  intro Ha. destruct (tabs_page o ui w) as (-> & -> & _).
  rewrite add_coach_tab_database, Ha.
  unfold list_coach_numbers. rewrite !select_all. simpl.
  rewrite map_app. simpl.
  split; [reflexivity|]. split; [reflexivity|].
  rewrite count_occ_app. simpl.
  destruct (string_dec (coach_number_input ui) (coach_number_input ui));
    [lia | congruence].
Qed.

(* ================================================================= *)
(** ** What every session keeps *)

Lemma identity_of_update (coach_no shop_in : string) (l : list Coach.row) :
  map identity_of
    (map (fun r => if (Coach.coach_no r =? coach_no)%string
                   then Coach.set_current_shop shop_in r else r) l)
  = map identity_of l.
Proof.
  rewrite map_map. apply map_ext. intro r.
  now destruct (Coach.coach_no r =? coach_no)%string.
Qed.

Lemma record_movement_identities
  (coach_no shop_out shop_in work_done : string) (w : world) :
  map identity_of (rows (coaches (database
    (fst (record_movement coach_no shop_out shop_in work_done w)))))
  = map identity_of (rows (coaches (database w))).
Proof.
  unfold record_movement.
  destruct (truthy shop_in && truthy shop_out); [|reflexivity].
  simpl. apply identity_of_update.
Qed.

Lemma tabs_identities (o : runtime) (ui : widgets) (w : world) :
  exists added : list Coach.row,
    map identity_of (rows (coaches (database (fst (tabs o ui w)))))
    = (map identity_of (rows (coaches (database w)))
       ++ map identity_of added)%list /\
    (List.length added <= 1)%nat.
Proof.
  rewrite tabs_world, update_movement_tab_world.
  assert (Hadd : exists added : list Coach.row,
    map identity_of (rows (coaches (fst (add_coach_tab ui (database w)))))
    = (map identity_of (rows (coaches (database w)))
       ++ map identity_of added)%list /\
    (List.length added <= 1)%nat).
  { rewrite add_coach_tab_database. destruct (add_accepted ui).
    - eexists [_]. simpl. rewrite map_app. simpl. split; [reflexivity | lia].
    - exists []. simpl. rewrite app_nil_r. split; [reflexivity | lia]. }
  destruct (move_accepted ui _); [rewrite record_movement_identities|];
    exact Hadd.
Qed.

(** X7: through any sequence of runs no coach is deleted and the id, the
    number, the type and the date of a stored coach never change: the list
    of these four fields, row by row, after the session is the list before
    it followed by those of the coaches added since. *)
Theorem coaches_keep_their_identity
  (o : runtime) (runs : list widgets) (w : world) :
  exists added : list Coach.row,
    map identity_of (rows (coaches (database (session o runs w))))
    = (map identity_of (rows (coaches (database w)))
       ++ map identity_of added)%list /\
    (List.length added <= List.length runs)%nat.
Proof.
  revert w. induction runs as [|ui runs IH]; intro w; simpl.
  - exists []. simpl. rewrite app_nil_r. split; [reflexivity | lia].
  - destruct (IH (fst (tabs o ui w))) as (later & Hl & Hn).
    destruct (tabs_identities o ui w) as (first & Hf & Hone).
    exists (first ++ later)%list. rewrite Hl, Hf, map_app, app_assoc.
    split; [reflexivity|]. rewrite length_app. lia.
Qed.

Lemma tabs_ok (o : runtime) (ui : widgets) (w : world) :
  db_ok (database w) -> db_ok (database (fst (tabs o ui w))).
Proof.
  intro H. rewrite tabs_world, update_movement_tab_world.
  assert (Hadd : db_ok (fst (add_coach_tab ui (database w)))).
  { unfold add_coach_tab. destruct (is_add_coach (clicked ui)); [|exact H].
    pose proof (add_coach_ok (coach_number_input ui)
                  (coach_type_text (type_input ui)) (date_in_input ui)
                  (initial_shop_input ui) _ H) as H'.
    now destruct (add_coach _ _ _ _ (database w)). }
  destruct (move_accepted ui _); [|exact Hadd].
  now apply record_movement_ok.
Qed.

Lemma strongly_sorted_nodup (l : list Z) :
  StronglySorted Z.lt l -> NoDup l.
Proof.
  induction 1 as [|x l Hs IH Hall]; constructor; [|exact IH].
  intro Hin. rewrite Forall_forall in Hall. specialize (Hall x Hin). lia.
Qed.

(** X8: a session that starts from tables in rowid order ends with tables
    in rowid order: in each table the ids grow strictly along the rows, so
    no id occurs twice, whatever is added and moved in between. *)
Theorem ids_stay_unique (o : runtime) (runs : list widgets) (w : world) :
  db_ok (database w) ->
  db_ok (database (session o runs w)) /\
  NoDup (map Coach.id (rows (coaches (database (session o runs w))))) /\
  NoDup (map Movement.id (rows (movements (database (session o runs w))))).
Proof.
  intro H.
  assert (Hok : db_ok (database (session o runs w))).
  { revert w H. induction runs as [|ui runs IH]; intros w H; simpl.
    - exact H.
    - apply IH. now apply tabs_ok. }
  split; [exact Hok|]. destruct Hok as [Hc Hm].
  split; now apply strongly_sorted_nodup.
Qed.

Lemma movement_well_formed_grows (d d' : db) (m : Movement.row) :
  (forall r, In r (rows (coaches d)) ->
     exists r', In r' (rows (coaches d')) /\
                Coach.coach_no r' = Coach.coach_no r) ->
  movement_well_formed d m -> movement_well_formed d' m.
Proof.
  intros Hgrow (Hin & Hout & r & Hr & Hno).
  destruct (Hgrow r Hr) as (r' & Hr' & Hno').
  repeat split; try assumption. exists r'. split; [exact Hr' | congruence].
Qed.

Lemma add_coach_tab_well_formed (ui : widgets) (d : db) :
  date_ok (date_in_input ui) = true ->
  well_formed d -> well_formed (fst (add_coach_tab ui d)).
Proof.
  intros Hdate [Hc Hm]. rewrite add_coach_tab_database.
  destruct (add_accepted ui) eqn:Ha; [|now split].
  unfold add_accepted in Ha.
  apply andb_prop in Ha. destruct Ha as [_ Ha].
  apply andb_prop in Ha. destruct Ha as [Hno Hshop].
  apply truthy_nonempty in Hno. apply truthy_nonempty in Hshop.
  split; simpl.
  - apply Forall_app. split; [exact Hc|]. constructor; [|constructor].
    unfold coach_well_formed. simpl. repeat split; eauto.
  - eapply Forall_impl; [|exact Hm]. intro m.
    apply movement_well_formed_grows. intros r Hr. exists r.
    split; [|reflexivity]. simpl. apply in_or_app. now left.
Qed.

Lemma record_movement_well_formed
  (coach_no shop_out shop_in work_done : string) (w : world) :
  well_formed (database w) ->
  (exists r, In r (rows (coaches (database w))) /\
             Coach.coach_no r = coach_no) ->
  well_formed (database
    (fst (record_movement coach_no shop_out shop_in work_done w))).
Proof.
  intros [Hc Hm] Hknown.
  destruct (truthy shop_in && truthy shop_out) eqn:Hok.
  - apply andb_prop in Hok. destruct Hok as [Hin Hout].
    apply truthy_nonempty in Hin. apply truthy_nonempty in Hout.
    rewrite (record_movement_accepted _ _ _ _ w Hin Hout). simpl.
    assert (Hgrow : forall r, In r (rows (coaches (database w))) ->
      exists r',
        In r' (map (fun r => if (Coach.coach_no r =? coach_no)%string
                             then Coach.set_current_shop shop_in r else r)
                 (rows (coaches (database w)))) /\
        Coach.coach_no r' = Coach.coach_no r).
    { intros r Hr. eexists. split; [apply in_map; exact Hr|].
      now destruct (Coach.coach_no r =? coach_no)%string. }
    split; simpl.
    + apply Forall_forall. intros r' Hr'. apply in_map_iff in Hr'.
      destruct Hr' as (r & <- & Hr). rewrite Forall_forall in Hc.
      destruct (Hc r Hr) as (H1 & H2 & H3 & H4).
      destruct (Coach.coach_no r =? coach_no)%string;
        unfold coach_well_formed; simpl; repeat split; assumption.
    + apply Forall_app. split.
      * eapply Forall_impl; [|exact Hm]. intro m.
        apply movement_well_formed_grows. exact Hgrow.
      * constructor; [|constructor]. unfold movement_well_formed. simpl.
        repeat split; try assumption.
        destruct Hknown as (r & Hr & Hno).
        destruct (Hgrow r Hr) as (r' & Hr' & Hno').
        exists r'. split; [exact Hr' | congruence].
  - unfold record_movement. rewrite Hok. now split.
Qed.

Lemma tabs_well_formed (o : runtime) (ui : widgets) (w : world) :
  date_ok (date_in_input ui) = true ->
  well_formed (database w) -> well_formed (database (fst (tabs o ui w))).
Proof.
  intros Hdate H. rewrite tabs_world, update_movement_tab_world.
  pose proof (add_coach_tab_well_formed ui _ Hdate H) as Hadd.
  simpl database.
  destruct (move_accepted ui _) eqn:Hm; [|exact Hadd].
  apply record_movement_well_formed; [exact Hadd|]. simpl.
  unfold move_accepted in Hm. unfold chosen_coach.
  destruct (list_coach_numbers (fst (add_coach_tab ui (database w))))
    as [|first rest] eqn:Hl.
  - now rewrite andb_false_r in Hm.
  - destruct (update_movement_tab_known_coach (select_coach_input ui)
                (World (fst (add_coach_tab ui (database w))) (clock w)
                   (reads w)) first rest Hl) as (r & Hr & Hno).
    exists r. unfold list_coaches in Hr. rewrite select_all in Hr.
    split; [exact Hr | exact Hno].
Qed.

(** X9: what the forms check holds of every row ever after.  In a session
    whose date widgets hold valid dates, started from a store of which this
    is true (the empty one for instance): every coach has a non-empty
    number and a non-empty current shop, one of the three types, and the
    ISO text of a valid date as [date_in]; every movement has both shops
    non-empty and the number of a coach that is in the table. *)
Theorem stored_rows_stay_well_formed
  (o : runtime) (runs : list widgets) (w : world) :
  Forall (fun ui => date_ok (date_in_input ui) = true) runs ->
  well_formed (database w) ->
  well_formed (database (session o runs w)).
Proof.
  revert w. induction runs as [|ui runs IH]; intros w Hruns H; simpl.
  - exact H.
  - inversion Hruns as [|? ? Hdate Hrest]; subst.
    apply IH; [exact Hrest|]. now apply tabs_well_formed.
Qed.

(* ================================================================= *)
(** ** More on the handlers *)

(** From the year 1000 on the year has four digits, and the stamps
    compare as TEXT the way the instants compare. *)
Lemma strftime_compare (a b : datetime) :
  datetime_ok a = true -> datetime_ok b = true ->
  1000 <= year (on_date a) -> 1000 <= year (on_date b) ->
  String.compare (strftime a) (strftime b) = datetime_compare a b.
Proof.
  intros Ha Hb Hya Hyb. rewrite !strftime_digits by assumption.
  apply datetime_ok_bounds in Ha, Hb.
  destruct Ha as (Hda & Hh & Hm & Hs), Hb as (Hdb & Hh' & Hm' & Hs').
  apply date_ok_bounds in Hda, Hdb.
  destruct Hda as (Hy & Hmo & Hd), Hdb as (Hy' & Hmo' & Hd').
  rewrite !str_int_4_digits by (simpl in Hy, Hy'; lia).
  unfold datetime_compare, date_compare.
  rewrite compare_app, digits_of_compare by (rewrite ?digits_of_length; auto).
  destruct (year (on_date a) ?= year (on_date b)); try reflexivity.
  cbn [append]. rewrite compare_cons_same.
  rewrite compare_app, digits_of_compare by (rewrite ?digits_of_length; auto).
  destruct (month (on_date a) ?= month (on_date b)); try reflexivity.
  cbn [append]. rewrite compare_cons_same.
  rewrite compare_app, digits_of_compare by (rewrite ?digits_of_length; auto).
  destruct (day (on_date a) ?= day (on_date b)); try reflexivity.
  cbn [append]. rewrite compare_cons_same.
  rewrite compare_app, digits_of_compare by (rewrite ?digits_of_length; auto).
  destruct (hour a ?= hour b); try reflexivity.
  cbn [append]. rewrite compare_cons_same.
  rewrite compare_app, digits_of_compare by (rewrite ?digits_of_length; auto).
  destruct (minute a ?= minute b); try reflexivity.
  cbn [append]. rewrite compare_cons_same.
  now apply digits_of_compare.
Qed.

(** Before the year 1000 the year is printed with fewer digits, and the
    TEXT order is not the order of the instants: the last second of the
    year 999 is stamped after the first second of the year 1000. *)
Lemma strftime_order_before_1000 :
  datetime_compare (DateTime (Date 999 12 31) 23 59 59 0)
    (DateTime (Date 1000 1 1) 0 0 0 0) = Lt /\
  String.compare (strftime (DateTime (Date 999 12 31) 23 59 59 0))
    (strftime (DateTime (Date 1000 1 1) 0 0 0 0)) = Gt.
Proof. split; vm_compute; reflexivity. Qed.

(** X10: when both readings of the clock fall in the year 1000 or later
    (the year then has its four digits), the two stamps of a movement
    compare as TEXT the way the two readings compare down to the second; so
    on a clock that does not go back between the readings
    [time_in <= time_out], and also [time_out <= time_in] only if both fall
    in the same second. *)
Theorem record_movement_stamps_in_clock_order
  (coach_no shop_out shop_in work_done : string) (w : world) :
  shop_in <> "" -> shop_out <> "" ->
  datetime_ok (clock w (reads w)) = true ->
  datetime_ok (clock w (S (reads w))) = true ->
  1000 <= year (on_date (clock w (reads w))) ->
  1000 <= year (on_date (clock w (S (reads w)))) ->
  exists m : Movement.row,
    rows (movements (database
      (fst (record_movement coach_no shop_out shop_in work_done w))))
    = (rows (movements (database w)) ++ [m])%list /\
    String.compare (Movement.time_in m) (Movement.time_out m)
    = datetime_compare (clock w (reads w)) (clock w (S (reads w))) /\
    (datetime_compare (clock w (reads w)) (clock w (S (reads w))) <> Gt ->
     String.leb (Movement.time_in m) (Movement.time_out m) = true).
Proof.
  intros Hin Hout H1 H2 Hy1 Hy2.
  rewrite (record_movement_accepted _ _ _ _ w Hin Hout). simpl.
  eexists. split; [reflexivity|]. simpl.
  rewrite (strftime_compare _ _ H1 H2 Hy1 Hy2). split; [reflexivity|].
  intro Hle. unfold String.leb. rewrite (strftime_compare _ _ H1 H2 Hy1 Hy2).
  now destruct (datetime_compare _ _).
Qed.

(** X11: recording a movement for one coach number leaves the history of
    every other number as it is: [get_movements_for] returns for it the very
    rows it returned before. *)
Theorem other_histories_are_untouched
  (coach_no shop_out shop_in work_done other : string) (w : world) :
  other <> coach_no ->
  get_movements_for other (database
    (fst (record_movement coach_no shop_out shop_in work_done w)))
  = get_movements_for other (database w).
Proof.
  intro Hne. unfold record_movement.
  destruct (truthy shop_in && truthy shop_out); [|reflexivity].
  simpl. unfold get_movements_for. simpl.
  rewrite (select_insert Movement.id). simpl.
  apply not_eq_sym in Hne. apply String.eqb_neq in Hne. rewrite Hne.
  apply app_nil_r.
Qed.

(** X12: a click on "Update Movement" with "Shop In" or "Shop Out" left
    empty is answered with the warning and does nothing else: both tables
    stay as they are and the clock is not even read. *)
Theorem record_movement_blank_is_refused
  (coach_no shop_out shop_in work_done : string) (w : world) :
  shop_in = "" \/ shop_out = "" ->
  fst (record_movement coach_no shop_out shop_in work_done w) = w /\
  snd (record_movement coach_no shop_out shop_in work_done w)
  = Warning "Please fill in both shop fields." /\
  reads (fst (record_movement coach_no shop_out shop_in work_done w))
  = reads w.
Proof.
  intro H. rewrite (record_movement_refused _ _ _ _ w H).
  repeat split.
Qed.

Lemma import_csv_export_csv (rt : runtime) (data : list Coach.row) :
  quotes_carriage_return rt = true \/ forallb cr_free data = true ->
  import_csv (export_csv rt data) = Some (coach_columns, data).
Proof.
  intro H. unfold import_csv.
  rewrite (export_csv_text rt data H), read_csv_writerows.
  now rewrite coaches_of_records_tuples.
Qed.


Lemma tabs_row_counts (o : runtime) (ui : widgets) (w : world) :
  List.length (rows (coaches (database (fst (tabs o ui w)))))
  = (List.length (rows (coaches (database w)))
     + if add_accepted ui then 1 else 0)%nat /\
  (List.length (rows (movements (database (fst (tabs o ui w)))))
   <= List.length (rows (movements (database w)))
      + if add_accepted ui then 0 else 1)%nat.
Proof.
  rewrite tabs_world, update_movement_tab_world. simpl database.
  rewrite move_accepted_after_add, add_coach_tab_database.
  assert (Hone : add_accepted ui = true ->
                 move_accepted ui (database w) = false).
  { unfold add_accepted, move_accepted.
    destruct (clicked ui); simpl; try discriminate; reflexivity. }
  destruct (add_accepted ui) eqn:Ha.
  - rewrite (Hone eq_refl). simpl. rewrite length_app. simpl. lia.
  - destruct (move_accepted ui (database w)); [|simpl; lia].
    unfold record_movement.
    destruct (truthy (shop_in_input ui) && truthy (shop_out_input ui));
      simpl; rewrite ?length_map, ?length_app; simpl; lia.
Qed.

(** X14: over any session, the number of coaches grows by the number of
    runs in which "Add Coach" was clicked with both fields filled in, no
    more and no less, and the two tables together never gain more rows
    than there were runs: one click adds at most one row. *)
Theorem rows_count_the_accepted_clicks
  (o : runtime) (runs : list widgets) (w : world) :
  List.length (rows (coaches (database (session o runs w))))
  = (List.length (rows (coaches (database w)))
     + List.length (filter add_accepted runs))%nat /\
  (List.length (rows (coaches (database (session o runs w))))
   + List.length (rows (movements (database (session o runs w))))
   <= List.length (rows (coaches (database w)))
      + List.length (rows (movements (database w)))
      + List.length runs)%nat.
Proof.
  revert w. induction runs as [|ui runs IH]; intro w; simpl.
  - lia.
  - destruct (IH (fst (tabs o ui w))) as [Hc Hall].
    destruct (tabs_row_counts o ui w) as [Hc1 Hm1].
    destruct (add_accepted ui); simpl in *; lia.
Qed.

Lemma filter_strongly_sorted {A : Type} (R : A -> A -> Prop)
  (p : A -> bool) (l : list A) :
  StronglySorted R l -> StronglySorted R (filter p l).
Proof.
  induction 1 as [|x l Hs IH Hall]; simpl; [constructor|].
  destruct (p x); [|exact IH]. constructor; [exact IH|].
  rewrite Forall_forall in *. intros y Hy. apply filter_In in Hy.
  now apply Hall.
Qed.

Lemma strongly_sorted_map_inv {A : Type} (f : A -> Z) (l : list A) :
  StronglySorted Z.lt (map f l) ->
  StronglySorted (fun a b => f a < f b) l.
Proof.
  induction l as [|x l IH]; simpl; intro H; [constructor|].
  inversion H as [|? ? Hs Hall]; subst. constructor; [now apply IH|].
  rewrite Forall_forall in *. intros y Hy. apply Hall. now apply in_map.
Qed.

(** X15: "Get Details" answers with the warning exactly when no movement
    carries the number asked for, whether a coach has that number or not;
    otherwise it lists the movements of that number, and on tables in rowid
    order it lists them by ascending id, the oldest first. *)
Theorem details_are_listed_oldest_first (ui : widgets) (d : db) :
  clicked ui = GetDetailsButton ->
  db_ok d ->
  match details_tab ui d with
  | Some (inr n) =>
      n = Warning "No movement found for this coach!" /\
      forall m, In m (rows (movements d)) ->
                Movement.coach_no m <> details_input ui
  | Some (inl data) =>
      data <> [] /\
      data = get_movements_for (details_input ui) d /\
      StronglySorted (fun a b => Movement.id a < Movement.id b) data
  | None => False
  end.
Proof.
  intros Hc [_ Hm]. unfold details_tab. rewrite Hc. simpl.
  assert (Hs : StronglySorted (fun a b => Movement.id a < Movement.id b)
                 (get_movements_for (details_input ui) d)).
  { unfold get_movements_for, select. apply filter_strongly_sorted.
    now apply strongly_sorted_map_inv. }
  destruct (get_movements_for (details_input ui) d) as [|m rest] eqn:Hg.
  - split; [reflexivity|]. intros m Hin Heq.
    assert (Hm' : In m (get_movements_for (details_input ui) d)).
    { unfold get_movements_for, select. apply filter_In.
      split; [exact Hin | now apply String.eqb_eq]. }
    rewrite Hg in Hm'. exact Hm'.
  - split; [discriminate|]. split; [reflexivity | exact Hs].
Qed.

(* ================================================================= *)
(** ** The theorems above at work on the sample store *)

Lemma sample_db_ok : db_ok sample_db.
Proof. split; repeat constructor. Qed.

Lemma coaches_by_type_counts_witness :
  exists chart,
    coaches_by_type (dashboard_tab sample_db) = Some chart /\
    sum_counts chart = 3%nat /\ NoDup (map fst chart).
Proof.
  pose proof (coaches_by_type_counts sample_db) as H.
  destruct (coaches_by_type (dashboard_tab sample_db)) as [chart|] eqn:E.
  - exists chart. destruct H as (_ & Hn & _ & Hs).
    split; [reflexivity|]. split; [rewrite Hs; reflexivity | exact Hn].
  - vm_compute in E. discriminate E.
Defined.

Lemma movements_per_coach_counts_witness :
  exists chart,
    movements_per_coach (dashboard_tab moved_db) = Some chart /\
    sum_counts chart = 1%nat.
Proof.
  pose proof (movements_per_coach_counts moved_db) as H.
  destruct (movements_per_coach (dashboard_tab moved_db)) as [chart|] eqn:E.
  - exists chart. destruct H as (_ & _ & _ & Hs).
    split; [reflexivity|]. rewrite Hs. reflexivity.
  - vm_compute in E. discriminate E.
Defined.

Lemma active_shops_bounds_witness :
  (total_shops (dashboard_tab sample_db)
   <= total_coaches (dashboard_tab sample_db))%nat /\
  total_shops (dashboard_tab sample_db) = 2%nat.
Proof.
  destruct (active_shops_bounds sample_db) as (_ & Hle & _).
  split; [exact Hle | reflexivity].
Defined.

Lemma run_without_submit_changes_nothing_witness :
  database (fst (tabs linux_311 (press NoButton) sample_world))
  = database sample_world /\
  exists p,
    script linux_311 (press NoButton) (Store None None) steady_clock
    = Some (ensure_schema (Store None None), p).
Proof.
  apply (run_without_submit_changes_nothing linux_311 (press NoButton)
           sample_world (Store None None) steady_clock).
  left. reflexivity.
Defined.

Lemma dashboard_is_one_run_behind_witness :
  total_coaches (dashboard_view
    (snd (tabs linux_311 (press AddCoachButton) sample_world))) = 3%nat /\
  total_coaches (dashboard_tab (database
    (fst (tabs linux_311 (press AddCoachButton) sample_world)))) = 4%nat.
Proof.
  destruct (dashboard_is_one_run_behind linux_311 (press AddCoachButton)
              sample_world) as (Hshown & Hnext & _ & _).
  split; [rewrite Hshown; reflexivity|].
  rewrite Hnext, Hshown. reflexivity.
Defined.

Lemma added_coach_is_offered_at_once_witness :
  select_coach_options
    (snd (tabs linux_311 (press AddCoachButton) sample_world))
  = ["C100"; "C100"; "C300"; "C400"].
Proof.
  destruct (added_coach_is_offered_at_once linux_311 (press AddCoachButton)
              sample_world) as (Hopt & _ & _); [reflexivity|].
  rewrite Hopt. reflexivity.
Defined.

Lemma coaches_keep_their_identity_witness :
  exists added : list Coach.row,
    map identity_of (rows (coaches (database
      (session linux_311 sample_session sample_world))))
    = (map identity_of (rows (coaches sample_db))
       ++ map identity_of added)%list /\
    (List.length added <= 3)%nat.
Proof.
  exact (coaches_keep_their_identity linux_311 sample_session sample_world).
Defined.

Lemma ids_stay_unique_witness :
  NoDup (map Coach.id (rows (coaches (database
    (session linux_311 sample_session (empty_world steady_clock)))))) /\
  NoDup (map Movement.id (rows (movements (database
    (session linux_311 sample_session (empty_world steady_clock)))))).
Proof.
  destruct (ids_stay_unique linux_311 sample_session (empty_world steady_clock))
    as (_ & Hc & Hm); [exact empty_db_ok|].
  split; [exact Hc | exact Hm].
Defined.

Lemma stored_rows_stay_well_formed_witness :
  well_formed (database
    (session linux_311 sample_session (empty_world steady_clock))).
Proof.
  apply (stored_rows_stay_well_formed linux_311 sample_session
           (empty_world steady_clock)).
  - repeat constructor.
  - split; constructor.
Defined.

Lemma record_movement_stamps_in_clock_order_witness :
  exists m : Movement.row,
    rows (movements moved_db) = (rows (movements sample_db) ++ [m])%list /\
    String.leb (Movement.time_in m) (Movement.time_out m) = true.
Proof.
  destruct (record_movement_stamps_in_clock_order
              "C100" "Shop A" "Shop B" "Wheel check" sample_world)
    as (m & Hrows & _ & Hle);
    [discriminate | discriminate | reflexivity | reflexivity
    | vm_compute; discriminate | vm_compute; discriminate |].
  exists m. split; [exact Hrows|]. apply Hle. discriminate.
Defined.

Lemma other_histories_are_untouched_witness :
  get_movements_for "C300" moved_db = get_movements_for "C300" sample_db.
Proof.
  apply (other_histories_are_untouched
           "C100" "Shop A" "Shop B" "Wheel check" "C300" sample_world).
  discriminate.
Defined.

Lemma record_movement_blank_is_refused_witness :
  fst (record_movement "C100" "Shop A" "" "Wheel check" sample_world)
  = sample_world /\
  snd (record_movement "C100" "Shop A" "" "Wheel check" sample_world)
  = Warning "Please fill in both shop fields." /\
  reads (fst (record_movement "C100" "Shop A" "" "Wheel check"
                sample_world))
  = reads sample_world.
Proof.
  apply (record_movement_blank_is_refused
           "C100" "Shop A" "" "Wheel check" sample_world).
  left. reflexivity.
Defined.


Lemma rows_count_the_accepted_clicks_witness :
  List.length (rows (coaches (database
    (session linux_311 sample_session sample_world)))) = 4%nat.
Proof.
  destruct (rows_count_the_accepted_clicks linux_311 sample_session sample_world)
    as [Hc _].
  rewrite Hc. reflexivity.
Defined.

Lemma details_are_listed_oldest_first_witness :
  exists data,
    details_tab (press GetDetailsButton) moved_db = Some (inl data) /\
    StronglySorted (fun a b => Movement.id a < Movement.id b) data.
Proof.
  assert (Hok : db_ok moved_db).
  { apply record_movement_ok. exact sample_db_ok. }
  pose proof (details_are_listed_oldest_first (press GetDetailsButton)
                moved_db eq_refl Hok) as H.
  destruct (details_tab (press GetDetailsButton) moved_db)
    as [[data | n]|] eqn:E.
  - exists data. split; [reflexivity|]. now destruct H as (_ & _ & H).
  - vm_compute in E. discriminate E.
  - destruct H.
Defined.
